(** * MAX chat bot: dispatcher, webhook ingress and rate limiter

    A shallow embedding of [max_chatbot.py], [main.py] and
    [webhook_server.py], and the properties of the message-intake pipeline
    proved about it.

    Conventions of the embedding:
    - Python values that travel inside an update are JSON-like values
      ([pyval]); numbers are integers, and a [dict] is an association list
      in insertion order.
    - A [str] is a [string]; characters outside ASCII appear as their UTF-8
      bytes. Case mapping and white space are modelled on the ASCII range.
    - Exceptions are instances of [Exception]: every [except Exception]
      clause of the source catches them.
    - Calls to [logger] write to the log sink only and are left out of the
      modelled state. *)

From Stdlib Require Import ZArith Ascii String List Bool Lia.
From stdpp Require Import base gmap strings list fin_maps.

Local Open Scope Z_scope.
Set Warnings "-register-all".

(** ** Python strings *)

Module PyStr.

Definition code (c : ascii) : nat := nat_of_ascii c.

(** [str.isspace] on one character: TAB, LF, VT, FF, CR, the four
    separators FS, GS, RS, US, and the space. *)
Definition isspace (c : ascii) : bool :=
  ((9 <=? code c)%nat && (code c <=? 13)%nat)
  || ((28 <=? code c)%nat && (code c <=? 32)%nat).

Definition isupper (c : ascii) : bool :=
  (65 <=? code c)%nat && (code c <=? 90)%nat.

Definition islower (c : ascii) : bool :=
  (97 <=? code c)%nat && (code c <=? 122)%nat.

Definition lower_char (c : ascii) : ascii :=
  if isupper c then ascii_of_nat (code c + 32) else c.

Definition upper_char (c : ascii) : ascii :=
  if islower c then ascii_of_nat (code c - 32) else c.

(** [s.lower()] *)
Fixpoint lower (s : string) : string :=
  match s with
  | EmptyString => EmptyString
  | String c s' => String (lower_char c) (lower s')
  end.

(** [s.startswith(p)] *)
Definition startswith (p s : string) : bool := String.prefix p s.

Definition snoc (w : string) (c : ascii) : string :=
  w +:+ String c EmptyString.

Definition flush (cur : string) : list string :=
  match cur with
  | EmptyString => []
  | _ => [cur]
  end.

(** The scanner behind [s.split()]: [cur] is the word being read. *)
Fixpoint split_from (cur : string) (s : string) : list string :=
  match s with
  | EmptyString => flush cur
  | String c s' =>
      if isspace c then flush cur ++ split_from EmptyString s'
      else split_from (snoc cur c) s'
  end.

(** [s.split()]: the maximal runs of non-space characters, in order. *)
Definition split (s : string) : list string := split_from EmptyString s.

(** [sep.join(ws)] *)
Fixpoint join (sep : string) (ws : list string) : string :=
  match ws with
  | [] => EmptyString
  | [w] => w
  | w :: ws' => w +:+ sep +:+ join sep ws'
  end.

(** Two characters that differ at most by letter case. *)
Definition same_letter (a b : ascii) : Prop :=
  a = b \/ a = upper_char b \/ a = lower_char b.

(** [t] is a case variant of [s]: same length, and the characters at each
    position differ at most by letter case. *)
Fixpoint case_variant (s t : string) : Prop :=
  match s, t with
  | EmptyString, EmptyString => True
  | String a s', String b t' => same_letter a b /\ case_variant s' t'
  | _, _ => False
  end.

(** A word: not empty, and no white space in it. *)
Fixpoint no_space (s : string) : bool :=
  match s with
  | EmptyString => true
  | String c s' => negb (isspace c) && no_space s'
  end.

Fixpoint all_space (s : string) : bool :=
  match s with
  | EmptyString => true
  | String c s' => isspace c && all_space s'
  end.

Definition nonempty (s : string) : bool :=
  match s with EmptyString => false | _ => true end.

Definition is_word (s : string) : bool := nonempty s && no_space s.
Definition is_gap (s : string) : bool := nonempty s && all_space s.

End PyStr.

(** ** Python values *)

(** JSON-like values: what [json] decoding yields for an inbound update. *)
Inductive pyval : Type :=
| PNone
| PBool (b : bool)
| PInt (n : Z)
| PStr (s : string)
| PList (l : list pyval)
| PDict (d : list (string * pyval)).

Abbreviation pydict := (list (string * pyval)).

(** Exceptions: class name and message. *)
Record exn : Type := Exn { exn_type : string; exn_msg : string }.

Definition AttributeError : exn := Exn "AttributeError" "object has no attribute".
Definition TypeError : exn := Exn "TypeError" "wrong argument".
Definition IndexError : exn := Exn "IndexError" "list index out of range".

(** The outcome of evaluating an expression or running a statement. *)
Inductive result (A : Type) : Type :=
| Ok (a : A)
| Raise (e : exn).

Arguments Ok {A} a.
Arguments Raise {A} e.

(** Truth value of a value, as [if v:] and [not v] take it. *)
Definition truthy (v : pyval) : bool :=
  match v with
  | PNone => false
  | PBool b => b
  | PInt n => negb (n =? 0)
  | PStr s => PyStr.nonempty s
  | PList l => match l with [] => false | _ => true end
  | PDict d => match d with [] => false | _ => true end
  end.

(** [d.get(k, default)] on a dict. *)
Fixpoint dict_get (d : pydict) (k : string) (default : pyval) : pyval :=
  match d with
  | [] => default
  | (k', v) :: d' => if String.eqb k' k then v else dict_get d' k default
  end.

(** [k in d] on a dict. *)
Fixpoint dict_has (d : pydict) (k : string) : bool :=
  match d with
  | [] => false
  | (k', _) :: d' => String.eqb k' k || dict_has d' k
  end.

(** [v.get(k, default)] on any value: only a dict has the method. *)
Definition py_get (v : pyval) (k : string) (default : pyval) : result pyval :=
  match v with
  | PDict d => Ok (dict_get d k default)
  | _ => Raise AttributeError
  end.

(** [v.startswith(p)] on any value: only a [str] has the method. *)
Definition py_startswith (v : pyval) (p : string) : result bool :=
  match v with
  | PStr s => Ok (PyStr.startswith p s)
  | _ => Raise AttributeError
  end.

(** ** Runtime state *)

(** Modelled from the spec: the state of the Durable Store
    ([DatabaseManager] of [utils], which is not among the sources): one
    document with a section of per-user records and a section of global
    values. *)
Record Database : Type := mkDatabase {
  users : pydict;
  globals : pydict
}.

(** What a handler can reach and change while an update is processed: the
    calls made to [send_message] (conversation, text), the store, and the
    wall clock as [cmd_time] renders it. *)
Record World : Type := mkWorld {
  outbox : list (pyval * string);
  database : Database;
  clock : string
}.

(** A Python callable: the number of positional parameters it takes and what
    its body does with them. *)
Record Callable : Type := mkCallable {
  co_name : string;
  co_argcount : nat;
  co_body : list pyval -> World -> result unit * World
}.

(** The state threaded through the processing of one update: the world, and
    the calls of handlers made so far (callee and arguments), oldest first. *)
Record Run : Type := mkRun {
  world : World;
  trace : list (Callable * list pyval)
}.

(** Statements: state passing with exceptions. *)
Definition M (A : Type) : Type := Run -> result A * Run.

Definition ret {A} (a : A) : M A := fun r => (Ok a, r).

Definition bind {A B} (c : M A) (k : A -> M B) : M B :=
  fun r => match c r with
           | (Ok a, r') => k a r'
           | (Raise e, r') => (Raise e, r')
           end.

Definition raise {A} (e : exn) : M A := fun r => (Raise e, r).

(** [try: c  except Exception as e: h e] *)
Definition try_except {A} (c : M A) (h : exn -> M A) : M A :=
  fun r => match c r with
           | (Ok a, r') => (Ok a, r')
           | (Raise e, r') => h e r'
           end.

Definition lift {A} (x : result A) : M A :=
  match x with
  | Ok a => ret a
  | Raise e => raise e
  end.

Declare Scope py_scope.
Delimit Scope py_scope with py.
Notation "x <- c ;; k" := (bind c (fun x => k))
  (at level 100, c at next level, right associativity) : py_scope.
Notation "c ;;; k" := (bind c (fun _ => k))
  (at level 100, right associativity) : py_scope.

(** [for x in xs: body x] *)
Fixpoint for_each {A} (xs : list A) (body : A -> M unit) : M unit :=
  match xs with
  | [] => ret tt
  | x :: xs' => bind (body x) (fun _ => for_each xs' body)
  end.

(** A call [f(a1, ..., an)]: the call is made; a wrong number of positional arguments
    raises [TypeError] before the body runs. *)
Definition call (f : Callable) (args : list pyval) : M unit :=
  fun r =>
    let called := mkRun (world r) (trace r ++ [(f, args)]) in
    if Nat.eqb (length args) (co_argcount f) then
      match co_body f args (world r) with
      | (res, w') => (res, mkRun w' (trace called))
      end
    else (Raise TypeError, called).

(** ** The bot ([max_chatbot.py]) *)

(** The registries of a [MAXChatBot]. They are filled at start-up and are
    not changed while an update is processed. *)
Record Bot : Type := mkBot {
  token : string;
  commands : gmap string Callable;
  message_handlers : list Callable
}.

(** [send_message]: one request to the transport. Its boolean result is
    discarded by every caller below; transport failures are caught inside
    it. *)
Definition send_message (chat_id : pyval) (text : string) (w : World) : World :=
  mkWorld (outbox w ++ [(chat_id, text)]) (database w) (clock w).

Definition send (chat_id : pyval) (text : string) : M unit :=
  fun r => (Ok tt, mkRun (send_message chat_id text (world r)) (trace r)).

Definition welcome_text : string :=
"🤖 Добро пожаловать!

Я бот для мессенджера MAX.
Используйте /help чтобы увидеть список доступных команд.

Готов к работе! 🚀".

Definition help_text : string :=
"📋 Доступные команды:

/start - Запустить бота
/help - Показать это сообщение
/time - Показать текущее время
/echo <текст> - Повторить ваш текст
/info - Информация о боте

🔧 Дополнительные функции:
• Отвечает на обычные сообщения
• Поддерживает отправку изображений
• Логирование всех действий".

Definition info_text : string :=
"ℹ️ Информация о боте:

🤖 Название: MAX Chat Bot
📅 Версия: 1.0.0
🐍 Python: 3.8+
⚡ Статус: Активен

Разработано для мессенджера MAX".

Definition time_prefix : string := "🕐 Текущее время: ".
Definition echo_prefix : string := "🔊 Эхо: ".
Definition echo_usage : string := "Используйте: /echo <ваш текст>".

(** The reply of [process_message] when a command handler raised. *)
Definition command_error_text : string :=
  "Произошла ошибка при выполнении команды.".

Definition unknown_prefix : string := "Неизвестная команда: ".
Definition unknown_hint : string := "
Используйте /help для списка команд.".

(** The reply of [process_message] to a command that is not registered. *)
Definition unknown_command_text (command : string) : string :=
  unknown_prefix +:+ command +:+ unknown_hint.

(** The elements of a list of [str], if it is one. *)
Fixpoint strings_of (l : list pyval) : option (list string) :=
  match l with
  | [] => Some []
  | PStr s :: l' =>
      match strings_of l' with
      | Some ss => Some (s :: ss)
      | None => None
      end
  | _ => None
  end.

(** The bound methods [cmd_start], [cmd_help], [cmd_time], [cmd_echo] and
    [cmd_info]: three positional parameters [(chat_id, args, message)];
    [args] is a list of [str], as the dispatcher passes it. *)
Definition cmd_start : Callable :=
  mkCallable "cmd_start" 3 (fun argv w =>
    match argv with
    | [chat_id; _; _] => (Ok tt, send_message chat_id welcome_text w)
    | _ => (Raise TypeError, w)
    end).

Definition cmd_help : Callable :=
  mkCallable "cmd_help" 3 (fun argv w =>
    match argv with
    | [chat_id; _; _] => (Ok tt, send_message chat_id help_text w)
    | _ => (Raise TypeError, w)
    end).

Definition cmd_time : Callable :=
  mkCallable "cmd_time" 3 (fun argv w =>
    match argv with
    | [chat_id; _; _] =>
        (Ok tt, send_message chat_id (time_prefix +:+ clock w) w)
    | _ => (Raise TypeError, w)
    end).

Definition cmd_echo : Callable :=
  mkCallable "cmd_echo" 3 (fun argv w =>
    match argv with
    | [chat_id; args; _] =>
        if truthy args then
          match args with
          | PList l =>
              match strings_of l with
              | Some ws =>
                  (Ok tt,
                   send_message chat_id (echo_prefix +:+ PyStr.join " " ws) w)
              | None => (Raise TypeError, w)
              end
          | _ => (Raise TypeError, w)
          end
        else (Ok tt, send_message chat_id echo_usage w)
    | _ => (Raise TypeError, w)
    end).

Definition cmd_info : Callable :=
  mkCallable "cmd_info" 3 (fun argv w =>
    match argv with
    | [chat_id; _; _] => (Ok tt, send_message chat_id info_text w)
    | _ => (Raise TypeError, w)
    end).

(** [add_command_handler]: the token is stored in lower case. *)
Definition add_command_handler (bot : Bot) (command : string)
    (handler : Callable) : Bot :=
  mkBot (token bot)
        (<[PyStr.lower command := handler]> (commands bot))
        (message_handlers bot).

(** [add_message_handler]: appended to the chain. *)
Definition add_message_handler (bot : Bot) (handler : Callable) : Bot :=
  mkBot (token bot) (commands bot) (message_handlers bot ++ [handler]).

Definition register_default_commands (bot : Bot) : Bot :=
  let bot := add_command_handler bot "/start" cmd_start in
  let bot := add_command_handler bot "/help" cmd_help in
  let bot := add_command_handler bot "/time" cmd_time in
  let bot := add_command_handler bot "/echo" cmd_echo in
  add_command_handler bot "/info" cmd_info.

(** [MAXChatBot(token)] *)
Definition MAXChatBot (tok : string) : Bot :=
  register_default_commands (mkBot tok ∅ []).

(** [command_parts[0]] *)
Definition first_part (parts : list string) : result string :=
  match parts with
  | p :: _ => Ok p
  | [] => Raise IndexError
  end.

(** [command_parts[1:] if len(command_parts) > 1 else []] *)
Definition rest_parts (parts : list string) : list string :=
  if (1 <? length parts)%nat then drop 1 parts else [].

(** [v.split()] on any value: only a [str] has the method. *)
Definition py_split (v : pyval) : result (list string) :=
  match v with
  | PStr s => Ok (PyStr.split s)
  | _ => Raise AttributeError
  end.

(** The command branch of [process_message]. *)
Definition dispatch_command (bot : Bot) (chat_id : pyval) (text : pyval)
    (message : pydict) : M unit :=
  (command_parts <- lift (py_split text) ;;
   first <- lift (first_part command_parts) ;;
   let command := PyStr.lower first in
   let args := rest_parts command_parts in
   match commands bot !! command with
   | Some handler =>
       try_except
         (call handler [chat_id; PList (map PStr args); PDict message])
         (fun _ => send chat_id command_error_text)
   | None => send chat_id (unknown_command_text command)
   end)%py.

(** The plain-text branch of [process_message]. *)
Definition dispatch_text (bot : Bot) (chat_id : pyval) (text : pyval)
    (message : pydict) : M unit :=
  for_each (message_handlers bot) (fun handler =>
    try_except (call handler [chat_id; text; PDict message])
               (fun _ => ret tt)).

(** [message.get("chat", {}).get("id")] *)
Definition chat_id_of (message : pydict) : result pyval :=
  py_get (dict_get message "chat" (PDict [])) "id" PNone.

(** [message.get("text", "")] *)
Definition text_of (message : pydict) : pyval :=
  dict_get message "text" (PStr "").

(** [message.get("from", {})] *)
Definition sender_of (message : pydict) : pyval :=
  dict_get message "from" (PDict []).

(** The body of the outer [try] of [process_message]. The user name is
    looked up for the log line. *)
Definition process_message_body (bot : Bot) (message : pydict) : M unit :=
  (chat_id <- lift (chat_id_of message) ;;
   let text := text_of message in
   let message_id := dict_get message "message_id" PNone in
   let user := sender_of message in
   if negb (truthy chat_id) then ret tt
   else
     _username <- lift (py_get user "username" (PStr "Unknown")) ;;
     is_command <- lift (py_startswith text "/") ;;
     if is_command then dispatch_command bot chat_id text message
     else dispatch_text bot chat_id text message)%py.

(** [process_message]: whatever the body raises is caught and logged. *)
Definition process_message (bot : Bot) (message : pydict) : M unit :=
  try_except (process_message_body bot message) (fun _ => ret tt).

(** Processing an update in a world, from an empty call trace. *)
Definition handle (bot : Bot) (message : pydict) (w : World)
    : result unit * Run :=
  process_message bot message (mkRun w []).

(** ** The extended bot ([main.py], [config.py]) *)

Record BotConfig : Type := mkBotConfig {
  BOT_TOKEN : string;
  ADMIN_IDS : list string
}.

(** [handle_stickers], [handle_files]: they look a field of the message up
    and do nothing with it. *)
Definition handle_stickers : Callable :=
  mkCallable "handle_stickers" 3 (fun argv w =>
    match argv with
    | [_; _; message] =>
        match py_get message "sticker" PNone with
        | Ok _ => (Ok tt, w)
        | Raise e => (Raise e, w)
        end
    | _ => (Raise TypeError, w)
    end).

Definition handle_files : Callable :=
  mkCallable "handle_files" 3 (fun argv w =>
    match argv with
    | [_; _; message] =>
        match py_get message "document" PNone with
        | Ok d =>
            if truthy d then (Ok tt, w)
            else match py_get message "photo" PNone with
                 | Ok _ => (Ok tt, w)
                 | Raise e => (Raise e, w)
                 end
        | Raise e => (Raise e, w)
        end
    | _ => (Raise TypeError, w)
    end).

(** [handle_urls]: [re.findall] wants a [str]; the matches are not used. *)
Definition handle_urls : Callable :=
  mkCallable "handle_urls" 3 (fun argv w =>
    match argv with
    | [_; PStr _; _] => (Ok tt, w)
    | _ => (Raise TypeError, w)
    end).

Section Extended.

(** The bodies of the module-level functions [cmd_admin], [cmd_stats],
    [cmd_weather], [cmd_reminder] and [cmd_calculator], by name. Each takes
    four positional parameters [(bot_instance, chat_id, args, message)]. *)
Variable main_body : string -> list pyval -> World -> result unit * World.

Definition cmd_admin : Callable :=
  mkCallable "cmd_admin" 4 (main_body "cmd_admin").
Definition cmd_stats : Callable :=
  mkCallable "cmd_stats" 4 (main_body "cmd_stats").
Definition cmd_weather : Callable :=
  mkCallable "cmd_weather" 4 (main_body "cmd_weather").
Definition cmd_reminder : Callable :=
  mkCallable "cmd_reminder" 4 (main_body "cmd_reminder").
Definition cmd_calculator : Callable :=
  mkCallable "cmd_calculator" 4 (main_body "cmd_calculator").

(** [create_extended_bot]: the registries it leaves. The attributes
    [rate_limiter], [user_sessions], [database] and [formatter] it sets hold
    objects of [utils]; [process_message] reads none of them. The content
    of [bot.database] is the [database] of the world. *)
Definition create_extended_bot (config : BotConfig) : Bot :=
  let bot := MAXChatBot (BOT_TOKEN config) in
  let bot := add_command_handler bot "/admin" cmd_admin in
  let bot := add_command_handler bot "/stats" cmd_stats in
  let bot := add_command_handler bot "/weather" cmd_weather in
  let bot := add_command_handler bot "/reminder" cmd_reminder in
  let bot := add_command_handler bot "/calc" cmd_calculator in
  let bot := add_message_handler bot handle_stickers in
  let bot := add_message_handler bot handle_files in
  add_message_handler bot handle_urls.

End Extended.

(** Modelled from the spec: the getters of the Durable Store
    ([get_global_data], [get_user_data] of [utils]), composed with the
    reads [cmd_admin] and [cmd_stats] make of their results:
    [get_global_data('stats', {}).get(name, 0)] and
    [get_user_data(user_id).get(name, default)]. *)
Definition global_stat (db : Database) (name : string) : pyval :=
  match dict_get (globals db) "stats" (PDict []) with
  | PDict stats => dict_get stats name (PInt 0)
  | _ => PInt 0
  end.

Definition user_field (db : Database) (user_id name : string)
    (default : pyval) : pyval :=
  match dict_get (users db) user_id (PDict []) with
  | PDict record => dict_get record name default
  | _ => default
  end.

(** ** The webhook endpoint ([webhook_server.py]) *)

(** The validator object: [WebhookValidator] is a class of [utils]; its
    method is taken as it comes. *)
Record WebhookValidator : Type := mkValidator {
  secret : string;
  validate_request : list (string * string) -> string -> result bool
}.

(** A request as the endpoint reads it: the headers, the raw body, and what
    [request.get_json()] gives for it. *)
Record Request : Type := mkRequest {
  headers : list (string * string);
  data : string;
  get_json : result pyval
}.

(** [jsonify(body), status] *)
Record Response : Type := mkResponse {
  body : pydict;
  status : Z
}.

(** The module globals, and the handling tasks started so far (each with
    the bot and the message it was given), oldest first. *)
Record Server : Type := mkServer {
  bot : option Bot;
  validator : option WebhookValidator;
  threads : list (Bot * pyval)
}.

(** [p in s] on two [str]. *)
Fixpoint str_contains (p s : string) : bool :=
  String.prefix p s
  || match s with
     | EmptyString => false
     | String _ s' => str_contains p s'
     end.

Definition is_str (v : pyval) (s : string) : bool :=
  match v with
  | PStr s' => String.eqb s' s
  | _ => false
  end.

(** ['message' in data] *)
Definition has_message (v : pyval) : result bool :=
  match v with
  | PDict d => Ok (dict_has d "message")
  | PList l => Ok (existsb (fun x => is_str x "message") l)
  | PStr s => Ok (str_contains "message" s)
  | _ => Raise TypeError
  end.

(** [data['message']] *)
Fixpoint dict_item (d : pydict) (k : string) : result pyval :=
  match d with
  | [] => Raise (Exn "KeyError" k)
  | (k', v) :: d' => if String.eqb k' k then Ok v else dict_item d' k
  end.

Definition message_of (v : pyval) : result pyval :=
  match v with
  | PDict d => dict_item d "message"
  | _ => Raise TypeError
  end.

Definition invalid_signature : Response :=
  mkResponse [("error", PStr "Invalid signature")] 403.
Definition no_data : Response :=
  mkResponse [("error", PStr "No data provided")] 400.
Definition accepted : Response :=
  mkResponse [("ok", PBool true)] 200.
Definition internal_error : Response :=
  mkResponse [("error", PStr "Internal server error")] 500.

(** The body of the [try] of [webhook]: the response, or the exception. *)
Definition webhook_body (req : Request) (srv : Server)
    : result Response * Server :=
  let validated :=
    match validator srv with
    | Some v => validate_request v (headers req) (data req)
    | None => Ok true
    end in
  match validated with
  | Raise e => (Raise e, srv)
  | Ok false => (Ok invalid_signature, srv)
  | Ok true =>
      match get_json req with
      | Raise e => (Raise e, srv)
      | Ok json =>
          if negb (truthy json) then (Ok no_data, srv)
          else
            match has_message json with
            | Raise e => (Raise e, srv)
            | Ok false => (Ok accepted, srv)
            | Ok true =>
                match bot srv with
                | None => (Raise AttributeError, srv)
                | Some b =>
                    match message_of json with
                    | Raise e => (Raise e, srv)
                    | Ok m =>
                        (Ok accepted,
                         mkServer (bot srv) (validator srv)
                                  (threads srv ++ [(b, m)]))
                    end
                end
            end
      end
  end.

(** [webhook]: an exception of the body becomes the 500 response. *)
Definition webhook (req : Request) (srv : Server) : Response * Server :=
  match webhook_body req srv with
  | (Ok resp, srv') => (resp, srv')
  | (Raise _, srv') => (internal_error, srv')
  end.

(** ** The rate limiter *)

Module RateLimiter.

(** The configuration of a limiter. Time is counted in ticks. *)
Record Config : Type := mkConfig {
  max_requests : nat;
  window_seconds : Z
}.

Abbreviation Windows := (gmap string (list Z)).

Definition window_of (st : Windows) (identity : string) : list Z :=
  default [] (st !! identity).

(** The timestamps of [ts] strictly newer than [now - window_seconds]. *)
Definition prune (cfg : Config) (now : Z) (ts : list Z) : list Z :=
  filter (fun t => now - window_seconds cfg < t) ts.

(** Modelled from the spec: [RateLimiter.is_allowed] of [utils], which is
    not among the sources. Per identity the limiter keeps the admission
    timestamps strictly newer than [now - window_seconds]; a call discards
    the timestamps outside the window, then admits (appends [now], returns
    true) iff the remaining count is below [max_requests], and otherwise
    returns false without recording the attempt. *)
Definition is_allowed (cfg : Config) (identity : string) (now : Z)
    (st : Windows) : bool * Windows :=
  let kept := prune cfg now (window_of st identity) in
  if (length kept <? max_requests cfg)%nat
  then (true, <[identity := kept ++ [now]]> st)
  else (false, <[identity := kept]> st).

(** The answers to a run of calls of one identity, at the given times. *)
Fixpoint answers (cfg : Config) (identity : string) (times : list Z)
    (st : Windows) : list bool * Windows :=
  match times with
  | [] => ([], st)
  | t :: times' =>
      let (a, st1) := is_allowed cfg identity t st in
      let (rest, st2) := answers cfg identity times' st1 in
      (a :: rest, st2)
  end.

(** All of [ts] lie in the trailing window of [now]. *)
Definition in_span (cfg : Config) (now : Z) (ts : list Z) : Prop :=
  Forall (fun t => now - window_seconds cfg < t <= now) ts.

(** [t0] is the oldest timestamp of [ts]. *)
Definition oldest (t0 : Z) (ts : list Z) : Prop :=
  t0 ∈ ts /\ Forall (fun t => t0 <= t) ts.

(** No identity has more than [max_requests] timestamps on record. *)
Definition bounded (cfg : Config) (st : Windows) : Prop :=
  forall identity, (length (window_of st identity) <= max_requests cfg)%nat.

End RateLimiter.

(** ** Shapes and sample inputs *)

Definition is_dict (v : pyval) : bool :=
  match v with
  | PDict _ => true
  | _ => false
  end.

(** An update of the inbound shape [{chat:{id}, text, from:{...}, ...}]
    that carries the conversation identifier [chat_id] and the text
    [text]: the identifier is there and truthy, the text is a [str], and
    the sender, when given, is a mapping. *)
Definition update_with (message : pydict) (chat_id : pyval) (text : string)
    : Prop :=
  chat_id_of message = Ok chat_id
  /\ truthy chat_id = true
  /\ text_of message = PStr text
  /\ is_dict (sender_of message) = true.

(** A word followed by (gap, word) pairs, written out as one text. *)
Fixpoint weave (w : string) (rest : list (string * string)) : string :=
  match rest with
  | [] => w
  | (gap, w') :: rest' => w +:+ gap +:+ weave w' rest'
  end.

(** Gaps are white space, words are not. *)
Definition well_woven (rest : list (string * string)) : Prop :=
  Forall (fun p => PyStr.is_gap (fst p) = true /\ PyStr.is_word (snd p) = true)
         rest.

(** The arguments a command handler is called with. *)
Definition command_args (chat_id : pyval) (args : list string)
    (message : pydict) : list pyval :=
  [chat_id; PList (map PStr args); PDict message].

(** The arguments a fallback handler is called with. *)
Definition text_args (chat_id : pyval) (text : string) (message : pydict)
    : list pyval :=
  [chat_id; PStr text; PDict message].

(** What a call of [h] in the world [w] gives, and the world it leaves. *)
Definition outcome_of_call (h : Callable) (argv : list pyval) (w : World)
    : result unit :=
  fst (call h argv (mkRun w [])).

Definition after_call (h : Callable) (argv : list pyval) (w : World)
    : World :=
  world (snd (call h argv (mkRun w []))).

(** The world left by calling the handlers of a chain one after another. *)
Definition after_calls (hs : list Callable) (argv : list pyval) (w : World)
    : World :=
  fold_left (fun w h => after_call h argv w) hs w.

(** The calls of a chain, in its order. *)
Definition calls_of (hs : list Callable) (argv : list pyval)
    : list (Callable * list pyval) :=
  map (fun h => (h, argv)) hs.

(** The store is the same after a call of [h] with three arguments as
    before it. *)
Definition keeps_store (h : Callable) : Prop :=
  forall argv w, length argv = 3%nat ->
    database (after_call h argv w) = database w.

(** No handler registered with the bot writes to the store. *)
Definition handlers_keep_store (bot : Bot) : Prop :=
  (forall c h, commands bot !! c = Some h -> keeps_store h)
  /\ Forall keeps_store (message_handlers bot).

(** The outbox is the same after a call of [h] as before it. *)
Definition sends_nothing (h : Callable) : Prop :=
  forall argv w, outbox (after_call h argv w) = outbox w.

(** The messages of the integration tests of [test_bot.py]. *)
Definition test_message (text : string) : pydict :=
  [("chat", PDict [("id", PStr "123")]);
   ("text", PStr text);
   ("message_id", PInt 1);
   ("from", PDict [("username", PStr "testuser"); ("id", PInt 123)])].

Definition empty_world : World :=
  mkWorld [] (mkDatabase [] []) "2024-01-01 00:00:00".

(** A world whose store has counted nothing yet. *)
Definition counting_world : World :=
  mkWorld []
    (mkDatabase
       [("123", PDict [("messages_sent", PInt 0); ("commands_used", PInt 0);
                       ("first_seen", PInt 1); ("last_seen", PInt 1)])]
       [("stats", PDict [("messages_processed", PInt 0);
                         ("commands_executed", PInt 0)])])
    "2024-01-01 00:00:00".

(** A handler that always raises, and one that always replies. *)
Definition failing_handler : Callable :=
  mkCallable "failing_handler" 3 (fun _ w => (Raise (Exn "ValueError" "boom"), w)).

Definition replying_handler : Callable :=
  mkCallable "replying_handler" 3 (fun argv w =>
    match argv with
    | [chat_id; _; _] => (Ok tt, send_message chat_id "pong" w)
    | _ => (Raise TypeError, w)
    end).

(** A validator that wants the header [X-Signature] to carry the secret. *)
Definition header_validator (s : string) : WebhookValidator :=
  mkValidator s (fun hs _ =>
    Ok (existsb (fun h => String.eqb (fst h) "X-Signature"
                          && String.eqb (snd h) s) hs)).

Definition spoofed_request : Request :=
  mkRequest [("X-Signature", "wrong")] "{}"
            (Ok (PDict [("message", PDict (test_message "/start"))])).

Definition guarded_server : Server :=
  mkServer (Some (MAXChatBot "secret")) (Some (header_validator "secret")) [].

(** ** The polling loop ([max_chatbot.py]) *)

(** What the transport gives for one request: the decoded JSON body, or an
    exception, which is a [RequestException] (connection failure, timeout,
    error status) or is not. *)
Inductive http_reply : Type :=
| Responded (json : pyval)
| Failed (e : exn) (is_request_exception : bool).

(** [get_updates]: the [result] of an [ok] reply, else the empty list; a
    [RequestException] is caught, anything else goes to the caller. *)
Definition get_updates (reply : http_reply) : result pyval :=
  match reply with
  | Failed e true => Ok (PList [])
  | Failed e false => Raise e
  | Responded json =>
      match py_get json "ok" PNone with
      | Raise e => Raise e
      | Ok ok =>
          if truthy ok then py_get json "result" (PList [])
          else Ok (PList [])
      end
  end.

(** [process_message(message)] for any value: [message.get] is inside the
    [try], so a message that is no mapping is caught there. *)
Definition process_message_value (bot : Bot) (message : pyval) : M unit :=
  match message with
  | PDict d => process_message bot d
  | _ => try_except (raise AttributeError) (fun _ => ret tt)
  end.

(** [v + 1] *)
Definition py_succ (v : pyval) : result Z :=
  match v with
  | PInt n => Ok (n + 1)
  | PBool b => Ok ((if b then 1 else 0) + 1)
  | _ => Raise TypeError
  end.

Fixpoint chars_of (s : string) : list pyval :=
  match s with
  | EmptyString => []
  | String c s' => PStr (String c EmptyString) :: chars_of s'
  end.

(** [for x in v]: the elements of a list, the keys of a dict, the
    characters of a [str]. *)
Definition py_iter (v : pyval) : result (list pyval) :=
  match v with
  | PList l => Ok l
  | PDict d => Ok (map (fun kv => PStr (fst kv)) d)
  | PStr s => Ok (chars_of s)
  | _ => Raise TypeError
  end.

(** [update.get("update_id", 0) + 1] *)
Definition next_offset (update : pyval) : result Z :=
  match py_get update "update_id" (PInt 0) with
  | Ok v => py_succ v
  | Raise e => Raise e
  end.

(** The [for] loop of [start_polling] over one batch. [offset] is the local
    variable: what it holds when the loop ends or raises is returned. *)
Fixpoint poll_updates (bot : Bot) (updates : list pyval) (offset : Z)
    (r : Run) : result unit * Z * Run :=
  match updates with
  | [] => (Ok tt, offset, r)
  | update :: rest =>
      match next_offset update with
      | Raise e => (Raise e, offset, r)
      | Ok offset' =>
          match has_message update with
          | Raise e => (Raise e, offset', r)
          | Ok false => poll_updates bot rest offset' r
          | Ok true =>
              match message_of update with
              | Raise e => (Raise e, offset', r)
              | Ok message =>
                  match process_message_value bot message r with
                  | (Ok _, r') => poll_updates bot rest offset' r'
                  | (Raise e, r') => (Raise e, offset', r')
                  end
              end
          end
      end
  end.

(** One turn of the [while] loop of [start_polling]: whatever is raised is
    caught and logged, and the loop goes on with the offset reached. *)
Definition poll_once (bot : Bot) (reply : http_reply) (offset : Z) (r : Run)
    : Z * Run :=
  match get_updates reply with
  | Raise _ => (offset, r)
  | Ok updates =>
      match py_iter updates with
      | Raise _ => (offset, r)
      | Ok us =>
          match poll_updates bot us offset r with
          | (_, offset', r') => (offset', r')
          end
      end
  end.

(** The turns of [start_polling] made while [running] stays set, one per
    reply of the transport, from offset 0. *)
Fixpoint polling_from (bot : Bot) (replies : list http_reply) (offset : Z)
    (r : Run) : Z * Run :=
  match replies with
  | [] => (offset, r)
  | reply :: replies' =>
      match poll_once bot reply offset r with
      | (offset', r') => polling_from bot replies' offset' r'
      end
  end.

Definition start_polling (bot : Bot) (replies : list http_reply) (w : World)
    : Z * Run :=
  polling_from bot replies 0 (mkRun w []).

(** What one update of a batch does to the run: its message, when it has
    one, is processed. *)
Definition deliver (bot : Bot) (r : Run) (update : pyval) : Run :=
  match has_message update, message_of update with
  | Ok true, Ok message => snd (process_message_value bot message r)
  | _, _ => r
  end.

(** The offset after a batch: one more than the identifier of its last
    update. *)
Definition offset_after (updates : list pyval) (offset : Z) : Z :=
  match last updates with
  | Some update =>
      match next_offset update with
      | Ok n => n
      | Raise _ => offset
      end
  | None => offset
  end.

(** An update the loop can take: a mapping whose [update_id], when given,
    is an integer. *)
Definition well_formed (update : pyval) : Prop :=
  exists n, next_offset update = Ok n.

(** An [ok] reply that carries the batch [us]. *)
Definition ok_reply (us : list pyval) : http_reply :=
  Responded (PDict [("ok", PBool true); ("result", PList us)]).

Definition update_of (update_id : Z) (text : string) : pyval :=
  PDict [("update_id", PInt update_id); ("message", PDict (test_message text))].

(** ** The greeting handler ([max_chatbot.py]) *)

Definition greetings : list string :=
  ["привет"; "hello"; "hi"; "здравствуй"; "добрый день"].

Definition greeting_reply : string := "👋 Привет! Как дела?".

(** [v.lower()] on any value: only a [str] has the method. *)
Definition py_lower (v : pyval) : result string :=
  match v with
  | PStr s => Ok (PyStr.lower s)
  | _ => Raise AttributeError
  end.

(** [handle_greeting]: replies when a greeting occurs in the lower-cased
    text. *)
Definition handle_greeting : Callable :=
  mkCallable "handle_greeting" 3 (fun argv w =>
    match argv with
    | [chat_id; text; _] =>
        match py_lower text with
        | Ok low =>
            if existsb (fun g => str_contains g low) greetings
            then (Ok tt, send_message chat_id greeting_reply w)
            else (Ok tt, w)
        | Raise e => (Raise e, w)
        end
    | _ => (Raise TypeError, w)
    end).

(** Every character is in the ASCII range. *)
Fixpoint ascii_only (s : string) : bool :=
  match s with
  | EmptyString => true
  | String c s' => (PyStr.code c <? 128)%nat && ascii_only s'
  end.

(** ** More shapes *)

(** The request passes the check of the endpoint: no validator is set, or
    the validator returns true. *)
Definition validated (req : Request) (srv : Server) : Prop :=
  match validator srv with
  | Some v => validate_request v (headers req) (data req) = Ok true
  | None => True
  end.



(** The tokens [create_extended_bot] adds to the registry. *)
Definition extended_tokens : list string :=
  ["/admin"; "/stats"; "/weather"; "/reminder"; "/calc"].

(** The token the dispatcher looks up for a message, when its text is a
    command. *)
Definition command_token_of (m : pydict) : option string :=
  match text_of m with
  | PStr s =>
      if PyStr.startswith "/" s then
        match PyStr.split s with
        | tok :: _ => Some (PyStr.lower tok)
        | [] => None
        end
      else None
  | _ => None
  end.

(** Running a handling task the endpoint started:
    [bot.process_message(data['message'])]. *)
Definition run_task (task : Bot * pyval) : M unit :=
  process_message_value (fst task) (snd task).

(** A body for the functions of [main.py] that would reply if it ran. *)
Definition loud_body (name : string) (argv : list pyval) (w : World)
    : result unit * World :=
  (Ok tt, send_message PNone name w).

(** ** Facts *)

(** *** The integration tests of [test_bot.py], replayed *)

Example split_echo :
  PyStr.split "/echo hello   world " = ["/echo"; "hello"; "world"].
Proof. reflexivity. Qed.

Example lower_mixed : PyStr.lower "/EcHo" = "/echo".
Proof. reflexivity. Qed.

Example test_process_start_command :
  outbox (world (snd (handle (MAXChatBot "test_token") (test_message "/start")
                             empty_world)))
  = [(PStr "123", welcome_text)].
Proof. vm_compute. reflexivity. Qed.

Example test_process_echo_command :
  outbox (world (snd (handle (MAXChatBot "test_token")
                             (test_message "/echo hello world") empty_world)))
  = [(PStr "123", echo_prefix +:+ "hello world")].
Proof. vm_compute. reflexivity. Qed.

Example test_process_unknown_command :
  outbox (world (snd (handle (MAXChatBot "test_token")
                             (test_message "/unknown") empty_world)))
  = [(PStr "123", unknown_command_text "/unknown")].
Proof. vm_compute. reflexivity. Qed.

(** *** Strings *)

#[local] Arguments String.append !s1 s2 : simpl nomatch.

Lemma lower_char_upper_char (c : ascii) :
  PyStr.lower_char (PyStr.upper_char c) = PyStr.lower_char c.
Proof. destruct c as [[] [] [] [] [] [] [] []]; reflexivity. Qed.

Lemma lower_char_idem (c : ascii) :
  PyStr.lower_char (PyStr.lower_char c) = PyStr.lower_char c.
Proof. destruct c as [[] [] [] [] [] [] [] []]; reflexivity. Qed.

Lemma same_letter_lower (a b : ascii) :
  PyStr.same_letter a b -> PyStr.lower_char a = PyStr.lower_char b.
Proof.
  intros [-> | [-> | ->]].
  - reflexivity.
  - apply lower_char_upper_char.
  - apply lower_char_idem.
Qed.

Lemma case_variant_lower (s t : string) :
  PyStr.case_variant s t -> PyStr.lower s = PyStr.lower t.
Proof.
  revert t. induction s as [|a s IH]; intros [|b t]; simpl; try tauto.
  intros [Hab Hst]. f_equal; [apply same_letter_lower, Hab | apply IH, Hst].
Qed.

Lemma append_assoc (a b c : string) : (a +:+ b) +:+ c = a +:+ (b +:+ c).
Proof. induction a as [|x a IH]; simpl; [reflexivity | now rewrite IH]. Qed.

Lemma append_empty_r (a : string) : a +:+ EmptyString = a.
Proof. induction a as [|x a IH]; simpl; [reflexivity | now rewrite IH]. Qed.

Lemma prefix_append (a b : string) : String.prefix a (a +:+ b) = true.
Proof.
  induction a as [|x a IH]; simpl.
  - now destruct b.
  - destruct (ascii_dec x x) as [_ | n]; [exact IH | now destruct n].
Qed.

(** Reading a word extends the word in hand. *)
Lemma split_from_word (w cur s : string) :
  PyStr.no_space w = true ->
  PyStr.split_from cur (w +:+ s) = PyStr.split_from (cur +:+ w) s.
Proof.
  revert cur. induction w as [|c w IH]; intros cur Hw; simpl in *.
  - now rewrite append_empty_r.
  - apply andb_prop in Hw as [Hc Hw].
    apply negb_true_iff in Hc. rewrite Hc.
    rewrite IH by exact Hw. unfold PyStr.snoc.
    now rewrite append_assoc.
Qed.

(** White space with no word in hand is skipped. *)
Lemma split_from_blank (g s : string) :
  PyStr.all_space g = true ->
  PyStr.split_from EmptyString (g +:+ s) = PyStr.split_from EmptyString s.
Proof.
  induction g as [|c g IH]; intros Hg; simpl in *; [reflexivity|].
  apply andb_prop in Hg as [Hc Hg]. rewrite Hc. simpl. now apply IH.
Qed.

(** A gap ends the word in hand. *)
Lemma split_from_gap (g cur s : string) :
  PyStr.is_gap g = true -> PyStr.nonempty cur = true ->
  PyStr.split_from cur (g +:+ s) = cur :: PyStr.split_from EmptyString s.
Proof.
  unfold PyStr.is_gap. intros Hg Hcur.
  destruct g as [|c g]; simpl in *; [discriminate|].
  apply andb_prop in Hg as [Hc Hg]. rewrite Hc.
  destruct cur; [discriminate|]. simpl.
  now rewrite split_from_blank.
Qed.

Lemma split_from_trail (cur trail : string) :
  PyStr.nonempty cur = true -> PyStr.all_space trail = true ->
  PyStr.split_from cur trail = [cur].
Proof.
  intros Hcur Ht. destruct trail as [|c t]; simpl in *.
  - now destruct cur.
  - apply andb_prop in Ht as [Hc Ht]. rewrite Hc.
    destruct cur; [discriminate|]. simpl.
    rewrite <- (append_empty_r t), split_from_blank by exact Ht.
    reflexivity.
Qed.

(** [split] gives back the words of a woven text, whatever the gaps. *)
Lemma split_weave (w : string) (rest : list (string * string))
    (trail : string) :
  PyStr.is_word w = true -> well_woven rest ->
  PyStr.all_space trail = true ->
  PyStr.split (weave w rest +:+ trail) = w :: map snd rest.
Proof.
  unfold PyStr.split. revert w.
  induction rest as [|[g w'] rest IH]; intros w Hw Hrest Ht; simpl.
  - apply andb_prop in Hw as [Hne Hns].
    rewrite split_from_word by exact Hns. simpl.
    now apply split_from_trail.
  - apply Forall_cons in Hrest as [[Hg Hw'] Hrest]. simpl in *.
    apply andb_prop in Hw as [Hne Hns].
    rewrite !append_assoc.
    rewrite split_from_word by exact Hns. simpl.
    rewrite split_from_gap by assumption.
    f_equal. now apply IH.
Qed.

(** *** Calls and the two branches of the dispatcher *)

Lemma call_spec (h : Callable) (argv : list pyval) (r : Run) :
  call h argv r
  = (outcome_of_call h argv (world r),
     mkRun (after_call h argv (world r)) (trace r ++ [(h, argv)])).
Proof.
  unfold outcome_of_call, after_call, call. simpl.
  destruct (Nat.eqb (length argv) (co_argcount h)); [|reflexivity].
  destruct (co_body h argv (world r)) as [res w']. reflexivity.
Qed.

(** A call with the wrong number of arguments raises and changes nothing. *)
Lemma call_arity_mismatch (h : Callable) (argv : list pyval) (w : World) :
  length argv <> co_argcount h ->
  outcome_of_call h argv w = Raise TypeError /\ after_call h argv w = w.
Proof.
  intros Hne. unfold outcome_of_call, after_call, call. simpl.
  destruct (Nat.eqb_spec (length argv) (co_argcount h)) as [Heq | _];
    [contradiction | split; reflexivity].
Qed.

(** [process_message] returns, whatever the update and the handlers. *)
Lemma process_message_returns (bot : Bot) (m : pydict) (r : Run) :
  fst (process_message bot m r) = Ok tt.
Proof.
  unfold process_message, try_except.
  destruct (process_message_body bot m r) as [[[] | e] r']; reflexivity.
Qed.

Lemma body_of_update (bot : Bot) (m : pydict) (cid : pyval) (text : string)
    (r : Run) :
  update_with m cid text ->
  process_message_body bot m r
  = if PyStr.startswith "/" text
    then dispatch_command bot cid (PStr text) m r
    else dispatch_text bot cid (PStr text) m r.
Proof.
  intros (Hcid & Htruthy & Htext & Hfrom).
  unfold process_message_body, bind, lift.
  rewrite Hcid. cbv beta iota delta [ret].
  rewrite Htruthy, Htext.
  destruct (sender_of m); try discriminate.
  cbv beta iota delta [ret negb py_get py_startswith].
  destruct (PyStr.startswith "/" text); reflexivity.
Qed.

(** The fallback chain: every handler is called, in order, whatever each
    call gives; nothing is raised and nothing else is done. *)
Lemma for_each_guarded (hs : list Callable) (argv : list pyval) (r : Run) :
  for_each hs (fun h => try_except (call h argv) (fun _ => ret tt)) r
  = (Ok tt, mkRun (after_calls hs argv (world r))
                  (trace r ++ calls_of hs argv)).
Proof.
  revert r. induction hs as [|h hs IH]; intros r; simpl.
  - unfold ret. rewrite app_nil_r. now destruct r.
  - unfold bind at 1, try_except at 1. rewrite call_spec.
    destruct (outcome_of_call h argv (world r)) as [[] | e];
      unfold ret; rewrite IH; simpl; now rewrite <- app_assoc.
Qed.

Lemma dispatch_text_spec (bot : Bot) (cid : pyval) (text : string)
    (m : pydict) (r : Run) :
  dispatch_text bot cid (PStr text) m r
  = (Ok tt, mkRun (after_calls (message_handlers bot) (text_args cid text m)
                               (world r))
                  (trace r ++ calls_of (message_handlers bot)
                                       (text_args cid text m))).
Proof. unfold dispatch_text. apply for_each_guarded. Qed.

(** The command branch, by what the registry holds for the token. *)
Lemma dispatch_command_known (bot : Bot) (cid : pyval) (text tok : string)
    (rest : list string) (m : pydict) (h : Callable) (r : Run) :
  PyStr.split text = tok :: rest ->
  commands bot !! PyStr.lower tok = Some h ->
  dispatch_command bot cid (PStr text) m r
  = let argv := command_args cid rest m in
    let r' := mkRun (after_call h argv (world r)) (trace r ++ [(h, argv)]) in
    match outcome_of_call h argv (world r) with
    | Ok _ => (Ok tt, r')
    | Raise _ =>
        (Ok tt, mkRun (send_message cid command_error_text (world r'))
                      (trace r'))
    end.
Proof.
  intros Hsplit Hreg.
  unfold dispatch_command, bind, lift, py_split.
  cbv beta iota delta [ret]. rewrite Hsplit.
  cbv beta iota delta [ret first_part]. rewrite Hreg.
  assert (rest_parts (tok :: rest) = rest) as -> by now destruct rest.
  unfold try_except. fold (command_args cid rest m). rewrite call_spec.
  destruct (outcome_of_call h (command_args cid rest m) (world r)) as [[] | e];
    reflexivity.
Qed.

Lemma dispatch_command_unknown (bot : Bot) (cid : pyval) (text tok : string)
    (rest : list string) (m : pydict) (r : Run) :
  PyStr.split text = tok :: rest ->
  commands bot !! PyStr.lower tok = None ->
  dispatch_command bot cid (PStr text) m r
  = (Ok tt,
     mkRun (send_message cid (unknown_command_text (PyStr.lower tok)) (world r))
           (trace r)).
Proof.
  intros Hsplit Hreg.
  unfold dispatch_command, bind, lift, py_split.
  cbv beta iota delta [ret]. rewrite Hsplit.
  cbv beta iota delta [ret first_part]. rewrite Hreg.
  reflexivity.
Qed.

(** What [process_message] does with an update, branch by branch. *)
Lemma handle_command_raises (bot : Bot) (m : pydict) (cid : pyval)
    (text tok : string) (rest : list string) (h : Callable) (e : exn)
    (w : World) :
  update_with m cid text ->
  PyStr.startswith "/" text = true ->
  PyStr.split text = tok :: rest ->
  commands bot !! PyStr.lower tok = Some h ->
  outcome_of_call h (command_args cid rest m) w = Raise e ->
  handle bot m w
  = (Ok tt,
     mkRun (send_message cid command_error_text
                         (after_call h (command_args cid rest m) w))
           [(h, command_args cid rest m)]).
Proof.
  intros Hup Hslash Hsplit Hreg Hraise.
  unfold handle, process_message, try_except.
  rewrite (body_of_update _ _ _ _ _ Hup), Hslash.
  rewrite (dispatch_command_known _ _ _ _ _ _ _ _ Hsplit Hreg).
  simpl. rewrite Hraise. reflexivity.
Qed.

Lemma handle_command_returns (bot : Bot) (m : pydict) (cid : pyval)
    (text tok : string) (rest : list string) (h : Callable) (w : World) :
  update_with m cid text ->
  PyStr.startswith "/" text = true ->
  PyStr.split text = tok :: rest ->
  commands bot !! PyStr.lower tok = Some h ->
  outcome_of_call h (command_args cid rest m) w = Ok tt ->
  handle bot m w
  = (Ok tt,
     mkRun (after_call h (command_args cid rest m) w)
           [(h, command_args cid rest m)]).
Proof.
  intros Hup Hslash Hsplit Hreg Hok.
  unfold handle, process_message, try_except.
  rewrite (body_of_update _ _ _ _ _ Hup), Hslash.
  rewrite (dispatch_command_known _ _ _ _ _ _ _ _ Hsplit Hreg).
  simpl. rewrite Hok. reflexivity.
Qed.

Lemma handle_command_unknown (bot : Bot) (m : pydict) (cid : pyval)
    (text tok : string) (rest : list string) (w : World) :
  update_with m cid text ->
  PyStr.startswith "/" text = true ->
  PyStr.split text = tok :: rest ->
  commands bot !! PyStr.lower tok = None ->
  handle bot m w
  = (Ok tt,
     mkRun (send_message cid (unknown_command_text (PyStr.lower tok)) w) []).
Proof.
  intros Hup Hslash Hsplit Hreg.
  unfold handle, process_message, try_except.
  rewrite (body_of_update _ _ _ _ _ Hup), Hslash.
  rewrite (dispatch_command_unknown _ _ _ _ _ _ _ Hsplit Hreg).
  reflexivity.
Qed.

Lemma handle_text (bot : Bot) (m : pydict) (cid : pyval) (text : string)
    (w : World) :
  update_with m cid text ->
  PyStr.startswith "/" text = false ->
  handle bot m w
  = (Ok tt,
     mkRun (after_calls (message_handlers bot) (text_args cid text m) w)
           (calls_of (message_handlers bot) (text_args cid text m))).
Proof.
  intros Hup Hslash.
  unfold handle, process_message, try_except.
  rewrite (body_of_update _ _ _ _ _ Hup), Hslash, dispatch_text_spec.
  reflexivity.
Qed.

(** A text that starts with the command prefix has a first token. *)
Lemma split_from_nonempty (cur s : string) :
  PyStr.nonempty cur = true -> PyStr.split_from cur s <> [].
Proof.
  revert cur. induction s as [|c s IH]; intros cur Hcur; simpl.
  - now destruct cur.
  - destruct (PyStr.isspace c).
    + now destruct cur.
    + apply IH. unfold PyStr.snoc. now destruct cur.
Qed.

Lemma startswith_slash (text : string) :
  PyStr.startswith "/" text = true -> exists s, text = String "/" s.
Proof.
  unfold PyStr.startswith. destruct text as [|c text]; [discriminate|].
  cbn [String.prefix].
  destruct (ascii_dec "/" c) as [<- | _]; [eauto | discriminate].
Qed.

Lemma split_command_nonempty (text : string) :
  PyStr.startswith "/" text = true -> PyStr.split text <> [].
Proof.
  intros [s ->]%startswith_slash. unfold PyStr.split. simpl.
  now apply split_from_nonempty.
Qed.

(** *** The dispatcher *)

(** C2. When the handler registered for the command of an update raises,
    [process_message] returns normally (the exception is caught), the
    handler has been called once, and exactly one reply is added after
    whatever the handler did: the generic command-error text, sent to the
    conversation of the update. *)
Theorem handler_failure_is_caught (bot : Bot) (m : pydict) (cid : pyval)
    (text tok : string) (rest : list string) (h : Callable) (e : exn)
    (w : World) :
  update_with m cid text ->
  PyStr.startswith "/" text = true ->
  PyStr.split text = tok :: rest ->
  commands bot !! PyStr.lower tok = Some h ->
  outcome_of_call h (command_args cid rest m) w = Raise e ->
  let after := after_call h (command_args cid rest m) w in
  let r := handle bot m w in
  fst r = Ok tt
  /\ trace (snd r) = [(h, command_args cid rest m)]
  /\ outbox (world (snd r)) = outbox after ++ [(cid, command_error_text)]
  /\ database (world (snd r)) = database after.
Proof.
  intros Hup Hslash Hsplit Hreg Hraise after r. subst r after.
  rewrite (handle_command_raises _ _ _ _ _ _ _ _ _ Hup Hslash Hsplit Hreg Hraise).
  repeat split; reflexivity.
Qed.

Lemma handler_failure_is_caught_witness :
  let bot := add_command_handler (MAXChatBot "test_token") "/boom"
                                 failing_handler in
  let r := handle bot (test_message "/boom now") empty_world in
  fst r = Ok tt
  /\ trace (snd r)
     = [(failing_handler,
         command_args (PStr "123") ["now"] (test_message "/boom now"))]
  /\ outbox (world (snd r)) = [(PStr "123", command_error_text)]
  /\ database (world (snd r)) = database empty_world.
Proof.
  intros bot r.
  apply (handler_failure_is_caught bot (test_message "/boom now") (PStr "123")
           "/boom now" "/boom" ["now"] failing_handler
           (Exn "ValueError" "boom") empty_world).
  - repeat split; reflexivity.
  - reflexivity.
  - reflexivity.
  - reflexivity.
  - reflexivity.
Defined.

(** C3. For an update whose text starts with the command prefix and whose
    lower-cased first token is not registered, [process_message] returns
    normally, calls no handler at all, and sends exactly one reply, to the
    conversation of the update: the command-not-recognised text, which
    names the token. *)
Theorem unknown_command_reply (bot : Bot) (m : pydict) (cid : pyval)
    (text tok : string) (rest : list string) (w : World) :
  update_with m cid text ->
  PyStr.startswith "/" text = true ->
  PyStr.split text = tok :: rest ->
  commands bot !! PyStr.lower tok = None ->
  let r := handle bot m w in
  let reply := unknown_command_text (PyStr.lower tok) in
  fst r = Ok tt
  /\ trace (snd r) = []
  /\ outbox (world (snd r)) = outbox w ++ [(cid, reply)]
  /\ PyStr.startswith unknown_prefix reply = true
  /\ database (world (snd r)) = database w.
Proof.
  intros Hup Hslash Hsplit Hreg r reply. subst r reply.
  rewrite (handle_command_unknown _ _ _ _ _ _ _ Hup Hslash Hsplit Hreg).
  repeat split; try reflexivity.
  apply prefix_append.
Qed.

Lemma unknown_command_reply_witness :
  let r := handle (MAXChatBot "test_token") (test_message "/Unknown")
                  empty_world in
  let reply := unknown_command_text (PyStr.lower "/Unknown") in
  fst r = Ok tt
  /\ trace (snd r) = []
  /\ outbox (world (snd r)) = outbox empty_world ++ [(PStr "123", reply)]
  /\ PyStr.startswith unknown_prefix reply = true
  /\ database (world (snd r)) = database empty_world.
Proof.
  apply (unknown_command_reply (MAXChatBot "test_token")
           (test_message "/Unknown") (PStr "123") "/Unknown" "/Unknown" []
           empty_world).
  - repeat split; reflexivity.
  - reflexivity.
  - reflexivity.
  - vm_compute. reflexivity.
Defined.

(** C4. For an update whose text does not start with the command prefix,
    [process_message] returns normally and the calls it makes are exactly
    the registered fallback handlers, each once, in registration order,
    each with (conversation, text, update); this holds whatever each call
    gives, so a handler that raises does not keep the later ones from being
    called. The world it leaves is the one the handlers leave. *)
Theorem fallback_chain_runs_in_order (bot : Bot) (m : pydict) (cid : pyval)
    (text : string) (w : World) :
  update_with m cid text ->
  PyStr.startswith "/" text = false ->
  let r := handle bot m w in
  fst r = Ok tt
  /\ trace (snd r) = calls_of (message_handlers bot) (text_args cid text m)
  /\ world (snd r)
     = after_calls (message_handlers bot) (text_args cid text m) w.
Proof.
  intros Hup Hslash r. subst r.
  rewrite (handle_text _ _ _ _ _ Hup Hslash).
  repeat split; reflexivity.
Qed.

Lemma fallback_chain_runs_in_order_witness :
  let bot := add_message_handler
               (add_message_handler (MAXChatBot "test_token") failing_handler)
               replying_handler in
  let m := test_message "hello" in
  let r := handle bot m empty_world in
  fst r = Ok tt
  /\ trace (snd r)
     = calls_of [failing_handler; replying_handler]
                (text_args (PStr "123") "hello" m)
  /\ world (snd r)
     = after_calls [failing_handler; replying_handler]
                   (text_args (PStr "123") "hello" m) empty_world.
Proof.
  intros bot m r.
  apply (fallback_chain_runs_in_order bot m (PStr "123") "hello" empty_world).
  - repeat split; reflexivity.
  - reflexivity.
Defined.

(** The later handler of that chain does run: its reply is in the outbox. *)
Example failing_handler_does_not_stop_the_chain :
  outbox (world (snd (handle
    (add_message_handler
       (add_message_handler (MAXChatBot "test_token") failing_handler)
       replying_handler)
    (test_message "hello") empty_world)))
  = [(PStr "123", "pong")].
Proof. vm_compute. reflexivity. Qed.

(** Registration appends: the chain is in registration order. *)
Lemma add_message_handler_order (bot : Bot) (h : Callable) :
  message_handlers (add_message_handler bot h) = message_handlers bot ++ [h].
Proof. reflexivity. Qed.

(** C10. Unless the message carries a conversation identifier that is
    there and truthy (so when [chat] or [chat.id] is absent, or the
    identifier is falsy, or [chat] is no mapping), [process_message]
    returns normally with no handler called and the world as it was:
    nothing is sent and nothing is changed. *)
Theorem no_conversation_no_effect (bot : Bot) (m : pydict) (w : World) :
  (forall v, chat_id_of m = Ok v -> truthy v = false) ->
  handle bot m w = (Ok tt, mkRun w []).
Proof.
  intros Hfalsy.
  unfold handle, process_message, try_except, process_message_body, bind, lift.
  destruct (chat_id_of m) as [v | e].
  - cbv beta iota delta [ret]. rewrite (Hfalsy v eq_refl). reflexivity.
  - reflexivity.
Qed.

Lemma no_conversation_no_effect_witness :
  handle (MAXChatBot "test_token")
         [("chat", PDict [("id", PInt 0)]); ("text", PStr "/start")]
         empty_world
  = (Ok tt, mkRun empty_world []).
Proof.
  apply (no_conversation_no_effect (MAXChatBot "test_token")
           [("chat", PDict [("id", PInt 0)]); ("text", PStr "/start")]
           empty_world).
  intros v Hv. vm_compute in Hv. injection Hv as <-. reflexivity.
Defined.

(** *** The Durable Store and the dispatcher *)

Lemma after_calls_store (hs : list Callable) (argv : list pyval) (w : World) :
  length argv = 3%nat -> Forall keeps_store hs ->
  database (after_calls hs argv w) = database w.
Proof.
  intros Hlen Hhs. revert w. unfold after_calls.
  induction Hhs as [|h hs Hh _ IH]; intros w; simpl; [reflexivity|].
  rewrite IH. now apply Hh.
Qed.

Lemma dispatch_command_store (bot : Bot) (cid text : pyval) (m : pydict)
    (r : Run) :
  (forall c h, commands bot !! c = Some h -> keeps_store h) ->
  database (world (snd (dispatch_command bot cid text m r)))
  = database (world r).
Proof.
  intros Hkeep. unfold dispatch_command, bind, lift, py_split.
  destruct text; try reflexivity.
  cbv beta iota delta [ret].
  destruct (PyStr.split s) as [|tok rest]; [reflexivity|].
  cbv beta iota delta [ret first_part].
  destruct (commands bot !! PyStr.lower tok) as [h|] eqn:Hreg; [|reflexivity].
  unfold try_except. rewrite call_spec.
  destruct (outcome_of_call _ _ _); simpl; now apply (Hkeep _ _ Hreg).
Qed.

Lemma dispatch_text_store (bot : Bot) (cid text : pyval) (m : pydict)
    (r : Run) :
  Forall keeps_store (message_handlers bot) ->
  database (world (snd (dispatch_text bot cid text m r)))
  = database (world r).
Proof.
  intros Hkeep. unfold dispatch_text. rewrite for_each_guarded. simpl.
  now apply after_calls_store.
Qed.

(** The body either stops before the branches, with the run as it was, or
    is one of the two branches. *)
Lemma body_cases (bot : Bot) (m : pydict) (r : Run) :
  (exists x, process_message_body bot m r = (x, r))
  \/ (exists cid, process_message_body bot m r
                  = dispatch_command bot cid (text_of m) m r)
  \/ (exists cid, process_message_body bot m r
                  = dispatch_text bot cid (text_of m) m r).
Proof.
  unfold process_message_body, bind, lift.
  destruct (chat_id_of m) as [cid | e]; [|left; eexists; reflexivity].
  cbv beta iota delta [ret].
  destruct (truthy cid); cbv beta iota delta [ret negb];
    [|left; eexists; reflexivity].
  destruct (py_get (sender_of m) "username" (PStr "Unknown"));
    [|left; eexists; reflexivity].
  cbv beta iota delta [ret].
  destruct (py_startswith (text_of m) "/") as [[] | e];
    cbv beta iota delta [ret].
  - right; left; eexists; reflexivity.
  - right; right; eexists; reflexivity.
  - left; eexists; reflexivity.
Qed.

(** [process_message] has no store operation of its own. *)
Lemma process_message_store (bot : Bot) (m : pydict) (r : Run) :
  handlers_keep_store bot ->
  database (world (snd (process_message bot m r))) = database (world r).
Proof.
  intros [Hcmd Htxt]. unfold process_message, try_except.
  destruct (body_cases bot m r) as [[x ->] | [[cid ->] | [cid ->]]].
  - now destruct x.
  - pose proof (dispatch_command_store bot cid (text_of m) m r Hcmd) as H.
    destruct (dispatch_command bot cid (text_of m) m r) as [[[] | e] r'];
      exact H.
  - pose proof (dispatch_text_store bot cid (text_of m) m r Htxt) as H.
    destruct (dispatch_text bot cid (text_of m) m r) as [[[] | e] r'];
      exact H.
Qed.

(** The five commands of [MAXChatBot] only send. *)
Lemma default_commands_keep_store :
  Forall keeps_store [cmd_start; cmd_help; cmd_time; cmd_echo; cmd_info].
Proof.
  repeat constructor; intros argv w Hlen;
    destruct argv as [|a [|b [|c [|d argv]]]]; try discriminate;
    unfold after_call, call; simpl; try reflexivity.
  destruct (truthy b); [|reflexivity].
  destruct b; try reflexivity.
  destruct (strings_of l); reflexivity.
Qed.

(** A callable of four parameters is never run by the dispatcher. *)
Lemma four_parameters_keep_store (name : string)
    (body : list pyval -> World -> result unit * World) :
  keeps_store (mkCallable name 4 body).
Proof.
  intros argv w Hlen.
  destruct (call_arity_mismatch (mkCallable name 4 body) argv w) as [_ ->];
    [simpl; lia | reflexivity].
Qed.

Lemma plain_handlers_keep_store :
  Forall keeps_store [handle_stickers; handle_files; handle_urls].
Proof.
  repeat constructor; intros argv w Hlen;
    destruct argv as [|a [|b [|c [|d argv]]]]; try discriminate;
    unfold after_call, call; simpl.
  - destruct (py_get c "sticker" PNone); reflexivity.
  - destruct (py_get c "document" PNone) as [v|]; [|reflexivity].
    destruct (truthy v); [reflexivity|].
    destruct (py_get c "photo" PNone); reflexivity.
  - destruct b; reflexivity.
Qed.

Lemma default_bot_keeps_store (tok : string) :
  handlers_keep_store (MAXChatBot tok).
Proof.
  pose proof default_commands_keep_store as Hd.
  rewrite !Forall_cons in Hd. destruct Hd as (H1 & H2 & H3 & H4 & H5 & _).
  split; [|constructor].
  intros c h. unfold MAXChatBot, register_default_commands. simpl.
  intros H.
  repeat (apply lookup_insert_Some in H as [[_ <-] | [_ H]]; [assumption|]).
  now rewrite lookup_empty in H.
Qed.

(** No handler of the extended bot writes to the store when the dispatcher
    calls it, whatever the bodies of the five functions of [main.py]. *)
Lemma extended_bot_keeps_store
    (main_body : string -> list pyval -> World -> result unit * World)
    (config : BotConfig) :
  handlers_keep_store (create_extended_bot main_body config).
Proof.
  pose proof default_commands_keep_store as Hd.
  rewrite !Forall_cons in Hd. destruct Hd as (H1 & H2 & H3 & H4 & H5 & _).
  split.
  - intros c h. unfold create_extended_bot, MAXChatBot,
      register_default_commands. simpl. intros H.
    repeat (apply lookup_insert_Some in H as [[_ <-] | [_ H]];
            [first [assumption | apply four_parameters_keep_store]|]).
    now rewrite lookup_empty in H.
  - apply plain_handlers_keep_store.
Qed.

(** C1 (amended). Processing an update does not touch the Durable Store:
    [process_message] has no store operation of its own, so when no
    registered handler writes to the store, the store after processing is
    the store before it; no global counter is incremented and no
    UserRecord is updated. *)
Theorem processing_leaves_store_unchanged (bot : Bot) (m : pydict)
    (w : World) :
  handlers_keep_store bot ->
  let db := database (world (snd (handle bot m w))) in
  db = database w
  /\ (forall name, global_stat db name = global_stat (database w) name)
  /\ (forall user name d,
        user_field db user name d = user_field (database w) user name d).
Proof.
  intros Hkeep db.
  assert (db = database w) as ->
    by (subst db; unfold handle; now rewrite process_message_store).
  repeat split; reflexivity.
Qed.

Lemma processing_leaves_store_unchanged_witness :
  let db := database (world (snd (handle (MAXChatBot "test_token")
                                        (test_message "/start")
                                        counting_world))) in
  db = database counting_world
  /\ (forall name, global_stat db name
                   = global_stat (database counting_world) name)
  /\ (forall user name d,
        user_field db user name d
        = user_field (database counting_world) user name d).
Proof.
  apply (processing_leaves_store_unchanged (MAXChatBot "test_token")
           (test_message "/start") counting_world).
  apply default_bot_keeps_store.
Defined.

(** C1 as stated fails: the command [/start] of a known user is processed
    (the welcome text is sent), and the counters "messages processed" and
    "commands executed" and the user's [commands_used] and [last_seen] are
    what they were, not one more and not a later time. *)
Lemma processing_increments_no_counter :
  let r := handle (MAXChatBot "test_token") (test_message "/start")
                  counting_world in
  let db := database (world (snd r)) in
  fst r = Ok tt
  /\ outbox (world (snd r)) = [(PStr "123", welcome_text)]
  /\ global_stat (database counting_world) "messages_processed" = PInt 0
  /\ global_stat db "messages_processed" = PInt 0
  /\ global_stat db "messages_processed" <> PInt (0 + 1)
  /\ global_stat db "commands_executed" <> PInt (0 + 1)
  /\ user_field db "123" "commands_used" PNone = PInt 0
  /\ user_field db "123" "last_seen" PNone = PInt 1.
Proof. vm_compute. repeat split; congruence. Qed.

(** *** Notices on failure *)

Lemma after_calls_outbox (hs : list Callable) (argv : list pyval) (w : World) :
  Forall sends_nothing hs -> outbox (after_calls hs argv w) = outbox w.
Proof.
  intros Hhs. revert w. unfold after_calls.
  induction Hhs as [|h hs Hh _ IH]; intros w; simpl; [reflexivity|].
  rewrite IH. apply Hh.
Qed.

(** C5 (amended). A command handler that raises gets the sender exactly one
    generic notice, the fixed command-error text. A fallback text handler
    that raises gets the sender nothing from the dispatcher: in the text
    branch [process_message] sends no message of its own, so the outbox
    holds what the handlers sent and, with handlers that send nothing, is
    what it was. *)
Theorem failure_notice_for_commands_only (bot : Bot) (m : pydict)
    (cid : pyval) (text : string) (w : World) :
  update_with m cid text ->
  let r := handle bot m w in
  (forall tok rest h e,
      PyStr.startswith "/" text = true ->
      PyStr.split text = tok :: rest ->
      commands bot !! PyStr.lower tok = Some h ->
      outcome_of_call h (command_args cid rest m) w = Raise e ->
      outbox (world (snd r))
      = outbox (after_call h (command_args cid rest m) w)
        ++ [(cid, command_error_text)])
  /\ (PyStr.startswith "/" text = false ->
      world (snd r)
      = after_calls (message_handlers bot) (text_args cid text m) w
      /\ (Forall sends_nothing (message_handlers bot) ->
          outbox (world (snd r)) = outbox w)).
Proof.
  intros Hup r. subst r. split.
  - intros tok rest h e Hslash Hsplit Hreg Hraise.
    now rewrite (handle_command_raises _ _ _ _ _ _ _ _ _
                   Hup Hslash Hsplit Hreg Hraise).
  - intros Hslash. rewrite (handle_text _ _ _ _ _ Hup Hslash). simpl.
    split; [reflexivity | apply after_calls_outbox].
Qed.

Lemma failure_notice_for_commands_only_witness :
  let bot := add_message_handler (MAXChatBot "test_token") failing_handler in
  let m := test_message "hello" in
  let r := handle bot m empty_world in
  (forall tok rest h e,
      PyStr.startswith "/" "hello" = true ->
      PyStr.split "hello" = tok :: rest ->
      commands bot !! PyStr.lower tok = Some h ->
      outcome_of_call h (command_args (PStr "123") rest m) empty_world
      = Raise e ->
      outbox (world (snd r))
      = outbox (after_call h (command_args (PStr "123") rest m) empty_world)
        ++ [(PStr "123", command_error_text)])
  /\ (PyStr.startswith "/" "hello" = false ->
      world (snd r)
      = after_calls (message_handlers bot)
                    (text_args (PStr "123") "hello" m) empty_world
      /\ (Forall sends_nothing (message_handlers bot) ->
          outbox (world (snd r)) = outbox empty_world)).
Proof.
  intros bot m r.
  apply (failure_notice_for_commands_only bot m (PStr "123") "hello"
           empty_world).
  repeat split; reflexivity.
Defined.

(** C5 as stated fails: a fallback text handler raises while the update
    "hello" is processed, and the sender gets nothing. *)
Lemma text_handler_failure_is_silent :
  let bot := add_message_handler (MAXChatBot "test_token") failing_handler in
  let m := test_message "hello" in
  let r := handle bot m empty_world in
  trace (snd r) = [(failing_handler, text_args (PStr "123") "hello" m)]
  /\ outcome_of_call failing_handler (text_args (PStr "123") "hello" m)
                     empty_world
     = Raise (Exn "ValueError" "boom")
  /\ fst r = Ok tt
  /\ outbox (world (snd r)) = [].
Proof. vm_compute. repeat split; reflexivity. Qed.

(** *** The command registry *)

Lemma startswith_append (tok s : string) :
  PyStr.startswith "/" tok = true -> PyStr.startswith "/" (tok +:+ s) = true.
Proof.
  intros [t ->]%startswith_slash.
  change (String "/" t +:+ s) with (String "/" (t +:+ s)).
  now destruct (t +:+ s).
Qed.

Lemma weave_head (w : string) (rest : list (string * string)) :
  exists s, weave w rest = w +:+ s.
Proof.
  destruct rest as [|[g w'] rest]; simpl.
  - exists EmptyString. now rewrite append_empty_r.
  - eauto.
Qed.

Lemma lookup_registered (bot : Bot) (c tok : string) (h : Callable) :
  PyStr.case_variant tok c ->
  commands (add_command_handler bot c h) !! PyStr.lower tok = Some h.
Proof.
  intros Hcase. simpl. rewrite (case_variant_lower _ _ Hcase).
  apply lookup_insert_eq.
Qed.

(** C8. The text of a command, a first word followed by words after gaps
    of white space (and maybe trailing white space), is split into its
    words; the token looked up is the first word in lower case and the
    arguments are the remaining words. Lookup ignores letter case: after a
    handler is registered under a token, an update whose first word is any
    case variant of that token calls that handler, with the arguments. *)
Theorem command_parsing_ignores_case (bot : Bot) (c : string) (h : Callable)
    (m : pydict) (cid : pyval) (tok : string) (rest : list (string * string))
    (trail : string) (w : World) :
  let text := weave tok rest +:+ trail in
  update_with m cid text ->
  PyStr.startswith "/" tok = true ->
  PyStr.is_word tok = true ->
  well_woven rest ->
  PyStr.all_space trail = true ->
  PyStr.case_variant tok c ->
  PyStr.split text = tok :: map snd rest
  /\ (commands bot !! PyStr.lower tok = None ->
      outbox (world (snd (handle bot m w)))
      = outbox w ++ [(cid, unknown_command_text (PyStr.lower tok))])
  /\ PyStr.lower tok = PyStr.lower c
  /\ trace (snd (handle (add_command_handler bot c h) m w))
     = [(h, command_args cid (map snd rest) m)].
Proof.
  intros text Hup Hslash Hword Hrest Htrail Hcase.
  assert (Hsplit : PyStr.split text = tok :: map snd rest)
    by now apply split_weave.
  assert (Hcmd : PyStr.startswith "/" text = true).
  { subst text. destruct (weave_head tok rest) as [s ->].
    rewrite append_assoc. now apply startswith_append. }
  repeat split.
  - exact Hsplit.
  - intros Hnone.
    now rewrite (handle_command_unknown _ _ _ _ _ _ _ Hup Hcmd Hsplit Hnone).
  - now apply case_variant_lower.
  - pose proof (lookup_registered bot c tok h Hcase) as Hreg.
    pose proof (dispatch_command_known (add_command_handler bot c h) cid text
                  tok (map snd rest) m h (mkRun w []) Hsplit Hreg) as Hd.
    unfold handle, process_message, try_except.
    rewrite (body_of_update _ _ _ _ _ Hup), Hcmd, Hd. simpl.
    destruct (outcome_of_call _ _ _); reflexivity.
Qed.

Lemma command_parsing_ignores_case_witness :
  let m := test_message "/ECHO hello   world " in
  let bot := MAXChatBot "test_token" in
  PyStr.split "/ECHO hello   world " = ["/ECHO"; "hello"; "world"]
  /\ (commands bot !! PyStr.lower "/ECHO" = None ->
      outbox (world (snd (handle bot m empty_world)))
      = outbox empty_world
        ++ [(PStr "123", unknown_command_text (PyStr.lower "/ECHO"))])
  /\ PyStr.lower "/ECHO" = PyStr.lower "/Echo"
  /\ trace (snd (handle (add_command_handler bot "/Echo" replying_handler)
                        m empty_world))
     = [(replying_handler,
         command_args (PStr "123") ["hello"; "world"] m)].
Proof.
  intros m bot.
  apply (command_parsing_ignores_case bot "/Echo" replying_handler m
           (PStr "123") "/ECHO" [(" ", "hello"); ("   ", "world")] " "
           empty_world).
  - repeat split; reflexivity.
  - reflexivity.
  - reflexivity.
  - repeat constructor.
  - reflexivity.
  - simpl. unfold PyStr.same_letter.
    repeat split; first [now left | now right; left | now right; right].
Defined.

(** The entries of a registry under one token. *)
Lemma entries_of_insert (reg : gmap string Callable) (k : string)
    (h : Callable) :
  filter (fun e => e.1 = k) (map_to_list (<[k := h]> reg)) = [(k, h)].
Proof.
  rewrite <- insert_delete_eq.
  assert (Hperm : map_to_list (<[k := h]> (delete k reg))
                  ≡ₚ (k, h) :: map_to_list (delete k reg))
    by (apply map_to_list_insert, lookup_delete_eq).
  assert (Hnone : filter (fun e : string * Callable => e.1 = k)
                         (map_to_list (delete k reg)) = []).
  { destruct (filter _ (map_to_list (delete k reg))) as [|[k' h'] l] eqn:Hf;
      [reflexivity|].
    assert (Hin : (k', h') ∈ filter (fun e : string * Callable => e.1 = k)
                                    (map_to_list (delete k reg)))
      by (rewrite Hf; left).
    apply list_elem_of_filter in Hin as [Hk Hin]. simpl in Hk. subst k'.
    apply elem_of_map_to_list in Hin.
    now rewrite lookup_delete_eq in Hin. }
  apply Permutation_singleton_r.
  rewrite Hperm, filter_cons_True by reflexivity.
  now rewrite Hnone.
Qed.

(** C9. Registering a token with one handler and then again with another
    leaves exactly one entry for the token, mapped to the second handler;
    the registry has as many entries as after the first registration, and
    the entries of all other tokens are as they were. *)
Theorem registration_overwrites (bot : Bot) (c : string) (h1 h2 : Callable) :
  let once := add_command_handler bot c h1 in
  let twice := add_command_handler once c h2 in
  commands twice !! PyStr.lower c = Some h2
  /\ filter (fun e => e.1 = PyStr.lower c) (map_to_list (commands twice))
     = [(PyStr.lower c, h2)]
  /\ size (commands twice) = size (commands once)
  /\ (forall k, k <> PyStr.lower c -> commands twice !! k = commands bot !! k)
  /\ message_handlers twice = message_handlers bot.
Proof.
  simpl. repeat split.
  - apply lookup_insert_eq.
  - apply entries_of_insert.
  - rewrite insert_insert_eq.
    destruct (commands bot !! PyStr.lower c) as [h|] eqn:Hc.
    + rewrite !map_size_insert_Some; eauto.
    + now rewrite !map_size_insert_None.
  - intros k Hk. now rewrite !lookup_insert_ne.
Qed.

Example test_add_command_handler :
  commands (add_command_handler (MAXChatBot "test_token") "/test"
                                replying_handler) !! "/test"
  = Some replying_handler.
Proof. apply lookup_insert_eq. Qed.

(** *** The webhook endpoint *)

(** C6. A request the configured validator rejects gets the
    authentication-failure response (403, invalid signature); the server
    is left as it was: no handling task is started and the body of the
    request is not looked at. *)
Theorem rejected_request_is_dropped (req : Request) (srv : Server)
    (v : WebhookValidator) :
  validator srv = Some v ->
  validate_request v (headers req) (data req) = Ok false ->
  webhook req srv = (invalid_signature, srv)
  /\ status (fst (webhook req srv)) = 403
  /\ threads (snd (webhook req srv)) = threads srv.
Proof.
  intros Hv Hreject.
  assert (webhook req srv = (invalid_signature, srv)) as ->.
  { unfold webhook, webhook_body. now rewrite Hv, Hreject. }
  repeat split; reflexivity.
Qed.

Lemma rejected_request_is_dropped_witness :
  webhook spoofed_request guarded_server = (invalid_signature, guarded_server)
  /\ status (fst (webhook spoofed_request guarded_server)) = 403
  /\ threads (snd (webhook spoofed_request guarded_server))
     = threads guarded_server.
Proof.
  apply (rejected_request_is_dropped spoofed_request guarded_server
           (header_validator "secret")).
  - reflexivity.
  - reflexivity.
Defined.

(** The same request with the right signature does start a task. *)
Example signed_request_is_handled :
  let req := mkRequest [("X-Signature", "secret")] (data spoofed_request)
                       (get_json spoofed_request) in
  fst (webhook req guarded_server) = accepted
  /\ length (threads (snd (webhook req guarded_server))) = 1%nat.
Proof. split; reflexivity. Qed.

(** The body of a rejected request is not read: the answer does not depend
    on what [get_json] would give. *)
Lemma rejected_request_ignores_body (req : Request) (srv : Server)
    (v : WebhookValidator) (json : result pyval) :
  validator srv = Some v ->
  validate_request v (headers req) (data req) = Ok false ->
  webhook (mkRequest (headers req) (data req) json) srv = webhook req srv.
Proof.
  intros Hv Hreject. unfold webhook, webhook_body. simpl.
  now rewrite Hv, Hreject.
Qed.

(** *** The rate limiter *)

Section Limiter.

Import RateLimiter.

Variable cfg : Config.

Lemma window_of_insert (st : Windows) (identity : string) (ts : list Z) :
  window_of (<[identity := ts]> st) identity = ts.
Proof. unfold window_of. now rewrite lookup_insert_eq. Qed.

Lemma window_of_insert_ne (st : Windows) (i j : string) (ts : list Z) :
  i <> j -> window_of (<[i := ts]> st) j = window_of st j.
Proof. intros Hne. unfold window_of. now rewrite lookup_insert_ne. Qed.

(** Pruning at a later time subsumes pruning at an earlier one. *)
Lemma prune_prune (now later : Z) (ts : list Z) :
  now <= later -> prune cfg later (prune cfg now ts) = prune cfg later ts.
Proof.
  intros Hle. unfold prune. rewrite list_filter_filter.
  apply list_filter_iff. intros t. lia.
Qed.

(** Nothing is pruned from timestamps that lie in the window. *)
Lemma prune_in_span (now : Z) (ts : list Z) :
  Forall (fun t => now - window_seconds cfg < t) ts -> prune cfg now ts = ts.
Proof.
  unfold prune. induction 1 as [|t ts Ht _ IH]; [reflexivity|].
  now rewrite filter_cons_True, IH.
Qed.

Lemma is_allowed_admits (identity : string) (now : Z) (st : Windows) :
  (length (prune cfg now (window_of st identity)) < max_requests cfg)%nat ->
  is_allowed cfg identity now st
  = (true, <[identity := prune cfg now (window_of st identity) ++ [now]]> st).
Proof.
  intros Hlt. unfold is_allowed.
  now destruct (Nat.ltb_spec (length (prune cfg now (window_of st identity)))
                             (max_requests cfg)); [|lia].
Qed.

Lemma is_allowed_rejects (identity : string) (now : Z) (st : Windows) :
  (max_requests cfg <= length (prune cfg now (window_of st identity)))%nat ->
  is_allowed cfg identity now st
  = (false, <[identity := prune cfg now (window_of st identity)]> st).
Proof.
  intros Hge. unfold is_allowed.
  now destruct (Nat.ltb_spec (length (prune cfg now (window_of st identity)))
                             (max_requests cfg)); [lia|].
Qed.

(** A rejected call is not seen by later calls. *)
Lemma rejection_leaves_no_mark (identity : string) (now later : Z)
    (st : Windows) :
  (max_requests cfg <= length (prune cfg now (window_of st identity)))%nat ->
  now <= later ->
  is_allowed cfg identity later (snd (is_allowed cfg identity now st))
  = is_allowed cfg identity later st.
Proof.
  intros Hge Hle. rewrite (is_allowed_rejects _ _ _ Hge). simpl.
  unfold is_allowed. rewrite window_of_insert, (prune_prune _ _ _ Hle).
  destruct (_ <? _)%nat; now rewrite insert_insert_eq.
Qed.

(** Calls made inside the window of [now], while fewer than [max_requests]
    timestamps are on record, are all admitted and all recorded. *)
Lemma burst_admitted (identity : string) (now : Z) (ts : list Z)
    (st : Windows) :
  in_span cfg now (window_of st identity ++ ts) ->
  (length (window_of st identity ++ ts) <= max_requests cfg)%nat ->
  fst (answers cfg identity ts st) = repeat true (length ts)
  /\ window_of (snd (answers cfg identity ts st)) identity
     = window_of st identity ++ ts.
Proof.
  revert st. induction ts as [|t ts IH]; intros st Hspan Hlen; simpl.
  - now rewrite app_nil_r.
  - assert (Hkeep : prune cfg t (window_of st identity)
                    = window_of st identity).
    { apply prune_in_span. unfold in_span in Hspan.
      rewrite Forall_app, Forall_cons in Hspan.
      destruct Hspan as (Hwin & Ht & _).
      eapply Forall_impl; [exact Hwin|]. simpl. intros x. lia. }
    rewrite length_app in Hlen. simpl in Hlen.
    rewrite is_allowed_admits by (rewrite Hkeep; lia).
    rewrite Hkeep.
    specialize (IH (<[identity := window_of st identity ++ [t]]> st)).
    rewrite window_of_insert, <- app_assoc in IH. simpl in IH.
    destruct IH as [IHa IHw]; [exact Hspan | rewrite length_app; simpl; lia |].
    destruct (answers cfg identity ts _) as [rest st2]. simpl in *.
    now rewrite IHa, IHw.
Qed.

Lemma answers_app (identity : string) (ts1 ts2 : list Z) (st : Windows) :
  fst (answers cfg identity (ts1 ++ ts2) st)
  = fst (answers cfg identity ts1 st)
    ++ fst (answers cfg identity ts2 (snd (answers cfg identity ts1 st))).
Proof.
  revert st. induction ts1 as [|t ts1 IH]; intros st; simpl; [reflexivity|].
  destruct (is_allowed cfg identity t st) as [a st1].
  specialize (IH st1).
  destruct (answers cfg identity (ts1 ++ ts2) st1) as [r12 st12].
  destruct (answers cfg identity ts1 st1) as [r1 st2]. simpl in *.
  now rewrite IH.
Qed.

(** The bound on the record is kept by every call, and holds at start. *)
Lemma is_allowed_bounded (identity : string) (now : Z) (st : Windows) :
  bounded cfg st -> bounded cfg (snd (is_allowed cfg identity now st)).
Proof.
  intros Hb j. unfold is_allowed.
  pose proof (length_filter (fun t => now - window_seconds cfg < t)
                            (window_of st identity)) as Hf.
  fold (prune cfg now (window_of st identity)) in Hf.
  destruct (Nat.ltb_spec (length (prune cfg now (window_of st identity)))
                         (max_requests cfg)) as [Hlt | Hge]; simpl;
    (destruct (decide (identity = j)) as [<- | Hne];
     [rewrite window_of_insert | rewrite window_of_insert_ne by exact Hne;
                                 apply Hb]).
  - rewrite length_app. simpl. lia.
  - specialize (Hb identity). lia.
Qed.

Lemma empty_bounded : bounded cfg ∅.
Proof. intros j. unfold window_of. rewrite lookup_empty. simpl. lia. Qed.

(** C7 (amended). A call that has [max_requests] recorded admissions of the
    identity within its trailing window returns false, records nothing
    (the record is the pruned one, other identities are untouched, and
    every later call answers as if the rejected call had not been made);
    so the call after [max_requests] calls made from an empty record inside
    its window is rejected. Once the oldest recorded admission is more than
    the window old, the call returns true. *)
Theorem sliding_window_admission (identity : string) (now : Z)
    (st : Windows) :
  let win := window_of st identity in
  ((max_requests cfg <= length (prune cfg now win))%nat ->
   fst (is_allowed cfg identity now st) = false
   /\ window_of (snd (is_allowed cfg identity now st)) identity
      = prune cfg now win
   /\ (forall j, j <> identity ->
         snd (is_allowed cfg identity now st) !! j = st !! j)
   /\ (forall later, now <= later ->
         is_allowed cfg identity later (snd (is_allowed cfg identity now st))
         = is_allowed cfg identity later st))
  /\ (forall ts, win = [] -> length ts = max_requests cfg ->
        in_span cfg now ts ->
        fst (answers cfg identity (ts ++ [now]) st)
        = repeat true (max_requests cfg) ++ [false])
  /\ (forall t0, (0 < max_requests cfg)%nat ->
        (length win <= max_requests cfg)%nat ->
        oldest t0 win -> t0 + window_seconds cfg < now ->
        fst (is_allowed cfg identity now st) = true).
Proof.
  intros win. subst win. repeat split.
  - now rewrite is_allowed_rejects.
  - rewrite is_allowed_rejects by assumption. apply window_of_insert.
  - intros j Hj. rewrite is_allowed_rejects by assumption. simpl.
    now rewrite lookup_insert_ne.
  - intros later Hle. now apply rejection_leaves_no_mark.
  - intros ts Hwin Hlen Hspan.
    destruct (burst_admitted identity now ts st) as [Ha Hw].
    { now rewrite Hwin. }
    { rewrite Hwin. simpl. lia. }
    rewrite answers_app, Ha, Hlen. f_equal. simpl.
    rewrite is_allowed_rejects; [reflexivity|].
    rewrite Hw, Hwin. simpl. rewrite prune_in_span, Hlen; [lia|].
    eapply Forall_impl; [exact Hspan|]. simpl. intros x. lia.
  - intros t0 Hpos Hlen [Hin _] Hold.
    rewrite is_allowed_admits; [reflexivity|].
    pose proof (length_filter_lt (fun t => now - window_seconds cfg < t)
                  (window_of st identity) t0 Hin) as Hlt.
    unfold prune. lia.
Qed.

End Limiter.

Lemma sliding_window_admission_witness :
  let cfg := RateLimiter.mkConfig 2 1000 in
  let full := snd (RateLimiter.answers cfg "user1" [0; 1] ∅) in
  fst (RateLimiter.is_allowed cfg "user1" 2 full) = false
  /\ fst (RateLimiter.answers cfg "user1" ([0; 1] ++ [2]) ∅)
     = [true; true; false]
  /\ fst (RateLimiter.is_allowed cfg "user1" 1001 full) = true.
Proof.
  intros cfg full.
  destruct (sliding_window_admission cfg "user1" 2 full) as (Hreject & _ & _).
  destruct (sliding_window_admission cfg "user1" 2 ∅) as (_ & Hburst & _).
  destruct (sliding_window_admission cfg "user1" 1001 full) as (_ & _ & Hopen).
  split; [|split].
  - apply Hreject. vm_compute. lia.
  - apply (Hburst [0; 1]).
    + reflexivity.
    + reflexivity.
    + repeat constructor; simpl; lia.
  - apply (Hopen 0).
    + simpl. lia.
    + vm_compute. lia.
    + split; [left | repeat constructor; lia].
    + simpl. lia.
Defined.

(** The limiter test of [test_bot.py], in milliseconds. *)
Example test_limit_reset_after_window :
  fst (RateLimiter.answers (RateLimiter.mkConfig 2 1000) "user1"
                           [0; 1; 2; 1102] ∅)
  = [true; true; false; true].
Proof. vm_compute. reflexivity. Qed.

(** C7 as stated fails: with one request per ten ticks, the calls at 5 and
    at 11 are two calls inside one trailing window, and the second of them
    is admitted, because the call at 5 was rejected and left no record. *)
Lemma second_call_in_span_admitted :
  let cfg := RateLimiter.mkConfig 1 10 in
  fst (RateLimiter.answers cfg "user1" [0; 5; 11] ∅) = [true; false; true]
  /\ RateLimiter.in_span cfg 11 [5; 11].
Proof.
  split; [vm_compute; reflexivity | repeat constructor; simpl; lia].
Qed.

(** *** More on parsing a command *)

Lemma isspace_lower_char (c : ascii) :
  PyStr.isspace (PyStr.lower_char c) = PyStr.isspace c.
Proof. destruct c as [[] [] [] [] [] [] [] []]; reflexivity. Qed.

Lemma isspace_upper_char (c : ascii) :
  PyStr.isspace (PyStr.upper_char c) = PyStr.isspace c.
Proof. destruct c as [[] [] [] [] [] [] [] []]; reflexivity. Qed.









Lemma lower_append (a b : string) :
  PyStr.lower (a +:+ b) = PyStr.lower a +:+ PyStr.lower b.
Proof. induction a as [|x a IH]; simpl; [reflexivity | now rewrite IH]. Qed.



(** *** What the dispatcher calls *)

Lemma process_message_run (bot : Bot) (m : pydict) (r : Run) :
  snd (process_message bot m r) = snd (process_message_body bot m r).
Proof.
  unfold process_message, try_except.
  destruct (process_message_body bot m r) as [[[] | e] r']; reflexivity.
Qed.

Lemma dispatch_command_trace (bot : Bot) (cid text : pyval) (m : pydict)
    (r : Run) :
  trace (snd (dispatch_command bot cid text m r)) = trace r
  \/ exists c h argv,
       commands bot !! c = Some h /\ length argv = 3%nat
       /\ trace (snd (dispatch_command bot cid text m r))
          = trace r ++ [(h, argv)].
Proof.
  unfold dispatch_command, bind, lift, py_split.
  destruct text; try (left; reflexivity).
  cbv beta iota delta [ret].
  destruct (PyStr.split s) as [|tok rest]; [left; reflexivity|].
  cbv beta iota delta [ret first_part].
  destruct (commands bot !! PyStr.lower tok) as [h|] eqn:Hreg;
    [|left; reflexivity].
  right.
  exists (PyStr.lower tok), h,
         [cid; PList (map PStr (rest_parts (tok :: rest))); PDict m].
  split; [exact Hreg|]. split; [reflexivity|].
  unfold try_except. rewrite call_spec.
  destruct (outcome_of_call _ _ _); reflexivity.
Qed.

(** X2. For any message at all, the calls [process_message] makes are none,
    or one call of a handler the registry holds, or the calls of the
    fallback chain in its order; each call has three arguments. It never
    calls a command handler and the fallback chain for the same update, and
    never a callable that is not registered. *)
Theorem dispatcher_calls_only_registered (bot : Bot) (m : pydict)
    (w : World) :
  let tr := trace (snd (handle bot m w)) in
  tr = []
  \/ (exists c h argv,
        commands bot !! c = Some h /\ length argv = 3%nat
        /\ tr = [(h, argv)])
  \/ (exists argv,
        length argv = 3%nat /\ tr = calls_of (message_handlers bot) argv).
Proof.
  intros tr. subst tr. unfold handle. rewrite process_message_run.
  destruct (body_cases bot m (mkRun w [])) as [[x ->] | [[cid ->] | [cid ->]]].
  - left. reflexivity.
  - destruct (dispatch_command_trace bot cid (text_of m) m (mkRun w []))
      as [-> | (c & h & argv & Hreg & Hlen & ->)].
    + left. reflexivity.
    + right. left. exists c, h, argv. auto.
  - right. right. unfold dispatch_text. rewrite for_each_guarded.
    eexists. split; [|reflexivity]. reflexivity.
Qed.

(** X3. An update that has a conversation identifier but whose sender is
    given and is no mapping, or whose text is no [str], is dropped without
    a trace: no handler is called, nothing is sent, nothing is changed. *)
Theorem malformed_update_is_dropped (bot : Bot) (m : pydict) (cid : pyval)
    (w : World) :
  chat_id_of m = Ok cid ->
  is_dict (sender_of m) = false \/ (forall s, text_of m <> PStr s) ->
  handle bot m w = (Ok tt, mkRun w []).
Proof.
  intros Hcid Hbad.
  unfold handle, process_message, try_except, process_message_body, bind, lift.
  rewrite Hcid. cbv beta iota delta [ret].
  destruct (truthy cid); cbv beta iota delta [ret negb]; [|reflexivity].
  destruct (sender_of m) eqn:Hfrom;
    cbv beta iota delta [ret raise py_get]; try reflexivity.
  destruct Hbad as [Hbad | Hbad]; [discriminate|].
  destruct (text_of m) eqn:Htext;
    cbv beta iota delta [ret raise py_startswith]; try reflexivity.
  now destruct (Hbad s).
Qed.

Lemma malformed_update_is_dropped_witness :
  handle (MAXChatBot "test_token")
         [("chat", PDict [("id", PStr "123")]); ("text", PStr "/start");
          ("from", PNone)]
         empty_world
  = (Ok tt, mkRun empty_world []).
Proof.
  apply (malformed_update_is_dropped (MAXChatBot "test_token")
           [("chat", PDict [("id", PStr "123")]); ("text", PStr "/start");
            ("from", PNone)]
           (PStr "123") empty_world).
  - reflexivity.
  - left. reflexivity.
Defined.

(** X4. When the handler registered for the command of an update returns,
    [process_message] adds nothing to what the handler did: the handler is
    called once with (conversation, arguments, update) and the world left
    is the one the handler left; the dispatcher sends no message of its
    own. *)
Theorem command_handler_has_the_last_word (bot : Bot) (m : pydict)
    (cid : pyval) (text tok : string) (rest : list string) (h : Callable)
    (w : World) :
  update_with m cid text ->
  PyStr.startswith "/" text = true ->
  PyStr.split text = tok :: rest ->
  commands bot !! PyStr.lower tok = Some h ->
  outcome_of_call h (command_args cid rest m) w = Ok tt ->
  let r := handle bot m w in
  fst r = Ok tt
  /\ trace (snd r) = [(h, command_args cid rest m)]
  /\ world (snd r) = after_call h (command_args cid rest m) w.
Proof.
  intros Hup Hslash Hsplit Hreg Hok r. subst r.
  rewrite (handle_command_returns _ _ _ _ _ _ _ _ Hup Hslash Hsplit Hreg Hok).
  repeat split; reflexivity.
Qed.

Lemma command_handler_has_the_last_word_witness :
  let bot := add_command_handler (MAXChatBot "test_token") "/ping"
                                 replying_handler in
  let m := test_message "/ping now" in
  let r := handle bot m empty_world in
  fst r = Ok tt
  /\ trace (snd r) = [(replying_handler, command_args (PStr "123") ["now"] m)]
  /\ world (snd r)
     = after_call replying_handler (command_args (PStr "123") ["now"] m)
                  empty_world.
Proof.
  intros bot m r.
  apply (command_handler_has_the_last_word bot m (PStr "123") "/ping now"
           "/ping" ["now"] replying_handler empty_world).
  - repeat split; reflexivity.
  - reflexivity.
  - reflexivity.
  - reflexivity.
  - reflexivity.
Defined.

(** *** The commands of [MAXChatBot] *)

Lemma strings_of_strs (ws : list string) :
  strings_of (map PStr ws) = Some ws.
Proof. induction ws as [|w ws IH]; simpl; [reflexivity | now rewrite IH]. Qed.

(** What each of the five commands does when the dispatcher calls it. *)
Lemma default_command_call (h : Callable) (cid : pyval) (rest : list string)
    (m : pydict) (w : World) :
  h ∈ [cmd_start; cmd_help; cmd_time; cmd_echo; cmd_info] ->
  outcome_of_call h (command_args cid rest m) w = Ok tt
  /\ exists reply,
       after_call h (command_args cid rest m) w = send_message cid reply w.
Proof.
  intros Hin. unfold outcome_of_call, after_call, call.
  repeat (apply elem_of_cons in Hin as [-> | Hin]); simpl;
    try (split; [reflexivity | eexists; reflexivity]).
  - rewrite strings_of_strs.
    destruct rest; simpl; (split; [reflexivity | eexists; reflexivity]).
  - now apply elem_of_nil in Hin.
Qed.

Lemma default_registry (tok0 c : string) (h : Callable) :
  commands (MAXChatBot tok0) !! c = Some h ->
  h ∈ [cmd_start; cmd_help; cmd_time; cmd_echo; cmd_info].
Proof.
  unfold MAXChatBot, register_default_commands. simpl. intros H.
  repeat (apply lookup_insert_Some in H as [[_ <-] | [_ H]];
          [set_solver|]).
  now rewrite lookup_empty in H.
Qed.

(** X5. The bot as [MAXChatBot] builds it answers every update whose text
    starts with the command prefix with exactly one message to the
    conversation of the update, whether the command is one of its five or
    not; it never fails on one and never stays silent. *)
Theorem default_bot_answers_every_command (tok0 : string) (m : pydict)
    (cid : pyval) (text : string) (w : World) :
  update_with m cid text ->
  PyStr.startswith "/" text = true ->
  let r := handle (MAXChatBot tok0) m w in
  fst r = Ok tt
  /\ exists reply,
       world (snd r) = send_message cid reply w
       /\ outbox (world (snd r)) = outbox w ++ [(cid, reply)].
Proof.
  intros Hup Hslash r. subst r.
  destruct (PyStr.split text) as [|tok rest] eqn:Hsplit;
    [now apply split_command_nonempty in Hslash|].
  destruct (commands (MAXChatBot tok0) !! PyStr.lower tok) as [h|] eqn:Hreg.
  - destruct (default_command_call h cid rest m w) as (Hok & reply & Hafter);
      [now apply (default_registry tok0 (PyStr.lower tok))|].
    rewrite (handle_command_returns _ _ _ _ _ _ _ _
               Hup Hslash Hsplit Hreg Hok).
    split; [reflexivity|]. exists reply. simpl. rewrite Hafter.
    split; reflexivity.
  - rewrite (handle_command_unknown _ _ _ _ _ _ _ Hup Hslash Hsplit Hreg).
    split; [reflexivity|]. eexists. split; reflexivity.
Qed.

Lemma default_bot_answers_every_command_witness :
  let r := handle (MAXChatBot "test_token") (test_message "/time please")
                  empty_world in
  fst r = Ok tt
  /\ exists reply,
       world (snd r) = send_message (PStr "123") reply empty_world
       /\ outbox (world (snd r))
          = outbox empty_world ++ [(PStr "123", reply)].
Proof.
  apply (default_bot_answers_every_command "test_token"
           (test_message "/time please") (PStr "123") "/time please"
           empty_world).
  - repeat split; reflexivity.
  - reflexivity.
Defined.

Lemma same_letter_space (a b : ascii) :
  PyStr.same_letter a b -> PyStr.isspace a = PyStr.isspace b.
Proof.
  intros [-> | [-> | ->]];
    [reflexivity | apply isspace_upper_char | apply isspace_lower_char].
Qed.

Lemma case_variant_word (s t : string) :
  PyStr.case_variant s t -> PyStr.is_word s = PyStr.is_word t.
Proof.
  unfold PyStr.is_word. revert t.
  induction s as [|a s IH]; intros [|b t]; simpl; try tauto.
  intros [Hab Hst]. rewrite (same_letter_space _ _ Hab).
  specialize (IH t Hst).
  destruct s, t; simpl in *; try tauto; congruence.
Qed.

Lemma case_variant_slash (tok c : string) :
  PyStr.case_variant tok c -> PyStr.startswith "/" c = true ->
  PyStr.startswith "/" tok = true.
Proof.
  intros Hcase [c' ->]%startswith_slash.
  destruct tok as [|a tok]; simpl in Hcase; [tauto|].
  destruct Hcase as [[-> | [-> | ->]] _]; now destruct tok.
Qed.

(** X6. [/echo], in any letter case, sends back its arguments joined by
    single spaces, whatever the white space between them was; without
    arguments it sends the usage line. *)
Theorem echo_joins_its_arguments (tok0 : string) (m : pydict) (cid : pyval)
    (tok : string) (rest : list (string * string)) (trail : string)
    (w : World) :
  update_with m cid (weave tok rest +:+ trail) ->
  PyStr.case_variant tok "/echo" ->
  well_woven rest ->
  PyStr.all_space trail = true ->
  world (snd (handle (MAXChatBot tok0) m w))
  = send_message cid
      (match rest with
       | [] => echo_usage
       | _ => echo_prefix +:+ PyStr.join " " (map snd rest)
       end) w.
Proof.
  intros Hup Hcase Hrest Htrail.
  assert (Hword : PyStr.is_word tok = true)
    by now rewrite (case_variant_word _ _ Hcase).
  assert (Hslash : PyStr.startswith "/" tok = true)
    by now apply (case_variant_slash tok "/echo").
  assert (Hsplit : PyStr.split (weave tok rest +:+ trail)
                   = tok :: map snd rest) by now apply split_weave.
  assert (Hcmd : PyStr.startswith "/" (weave tok rest +:+ trail) = true).
  { destruct (weave_head tok rest) as [s ->].
    rewrite append_assoc. now apply startswith_append. }
  assert (Hreg : commands (MAXChatBot tok0) !! PyStr.lower tok
                 = Some cmd_echo).
  { rewrite (case_variant_lower _ _ Hcase). reflexivity. }
  assert (Hok : outcome_of_call cmd_echo (command_args cid (map snd rest) m) w
                = Ok tt).
  { apply default_command_call. set_solver. }
  rewrite (handle_command_returns _ _ _ _ _ _ _ _ Hup Hcmd Hsplit Hreg Hok).
  unfold after_call, call. simpl. rewrite strings_of_strs.
  now destruct rest.
Qed.

Lemma echo_joins_its_arguments_witness :
  world (snd (handle (MAXChatBot "test_token")
                     (test_message "/Echo  hello   world ") empty_world))
  = send_message (PStr "123") (echo_prefix +:+ "hello world") empty_world.
Proof.
  apply (echo_joins_its_arguments "test_token"
           (test_message "/Echo  hello   world ") (PStr "123") "/Echo"
           [("  ", "hello"); ("   ", "world")] " " empty_world).
  - repeat split; reflexivity.
  - simpl. unfold PyStr.same_letter.
    repeat split; first [now left | now right; left | now right; right].
  - repeat constructor.
  - reflexivity.
Defined.

(** *** The extended bot *)

Lemma extended_registry
    (main_body : string -> list pyval -> World -> result unit * World)
    (config : BotConfig) (c : string) :
  c ∈ extended_tokens ->
  exists name,
    commands (create_extended_bot main_body config) !! c
    = Some (mkCallable name 4 (main_body name)).
Proof.
  intros Hin. unfold extended_tokens in Hin.
  repeat (apply elem_of_cons in Hin as [-> | Hin]);
    try (eexists; reflexivity).
  now apply elem_of_nil in Hin.
Qed.

(** X7. The five commands [create_extended_bot] adds cannot be used through
    the dispatcher: each is a function of four parameters and is called
    with three, so whatever its body, the body does not run, and the sender
    gets the generic command-error reply and nothing else. *)
Theorem extended_commands_always_fail
    (main_body : string -> list pyval -> World -> result unit * World)
    (config : BotConfig) (m : pydict) (cid : pyval) (text tok : string)
    (rest : list string) (w : World) :
  update_with m cid text ->
  PyStr.startswith "/" text = true ->
  PyStr.split text = tok :: rest ->
  PyStr.lower tok ∈ extended_tokens ->
  let r := handle (create_extended_bot main_body config) m w in
  fst r = Ok tt
  /\ world (snd r) = send_message cid command_error_text w
  /\ length (trace (snd r)) = 1%nat.
Proof.
  intros Hup Hslash Hsplit Hin r. subst r.
  destruct (extended_registry main_body config _ Hin) as [name Hreg].
  destruct (call_arity_mismatch (mkCallable name 4 (main_body name))
              (command_args cid rest m) w) as [Hraise Hsame];
    [simpl; lia|].
  rewrite (handle_command_raises _ _ _ _ _ _ _ _ _
             Hup Hslash Hsplit Hreg Hraise).
  simpl. rewrite Hsame. repeat split; reflexivity.
Qed.

Lemma extended_commands_always_fail_witness :
  let r := handle (create_extended_bot loud_body (mkBotConfig "t" ["123"]))
                  (test_message "/weather Moscow") empty_world in
  fst r = Ok tt
  /\ world (snd r)
     = send_message (PStr "123") command_error_text empty_world
  /\ length (trace (snd r)) = 1%nat.
Proof.
  apply (extended_commands_always_fail loud_body (mkBotConfig "t" ["123"])
           (test_message "/weather Moscow") (PStr "123") "/weather Moscow"
           "/weather" ["Moscow"] empty_world).
  - repeat split; reflexivity.
  - reflexivity.
  - reflexivity.
  - vm_compute. set_solver.
Defined.

(** X8. The extended bot does nothing with an update of plain text: its
    three fallback handlers are called, in the order they were added, and
    the world is left as it was; nothing is sent. *)
Theorem extended_bot_ignores_plain_text
    (main_body : string -> list pyval -> World -> result unit * World)
    (config : BotConfig) (m : pydict) (cid : pyval) (text : string)
    (w : World) :
  update_with m cid text ->
  PyStr.startswith "/" text = false ->
  handle (create_extended_bot main_body config) m w
  = (Ok tt,
     mkRun w (calls_of [handle_stickers; handle_files; handle_urls]
                       (text_args cid text m))).
Proof.
  intros Hup Hslash. rewrite (handle_text _ _ _ _ _ Hup Hslash).
  f_equal. f_equal.
  unfold after_calls, after_call, call. simpl.
  destruct (truthy (dict_get m "document" PNone)); reflexivity.
Qed.

Lemma extended_bot_ignores_plain_text_witness :
  handle (create_extended_bot loud_body (mkBotConfig "t" []))
         (test_message "hello http://example.com") empty_world
  = (Ok tt,
     mkRun empty_world
           (calls_of [handle_stickers; handle_files; handle_urls]
                     (text_args (PStr "123") "hello http://example.com"
                                (test_message "hello http://example.com")))).
Proof.
  apply (extended_bot_ignores_plain_text loud_body (mkBotConfig "t" [])
           (test_message "hello http://example.com") (PStr "123")
           "hello http://example.com" empty_world).
  - repeat split; reflexivity.
  - reflexivity.
Defined.

(** X9. Registration ignores letter case: registering a token and then any
    case variant of it leaves one entry for the token, in lower case,
    mapped to the handler registered last; so a handler registered under a
    case variant of a built-in command replaces the built-in one. *)
Theorem registering_case_variant_replaces (bot : Bot) (c c' : string)
    (h1 h2 : Callable) :
  PyStr.case_variant c' c ->
  let twice := add_command_handler (add_command_handler bot c h1) c' h2 in
  commands twice !! PyStr.lower c = Some h2
  /\ filter (fun e => e.1 = PyStr.lower c) (map_to_list (commands twice))
     = [(PyStr.lower c, h2)]
  /\ size (commands twice) = size (commands (add_command_handler bot c h1))
  /\ (forall k, k <> PyStr.lower c -> commands twice !! k = commands bot !! k).
Proof.
  intros Hcase. simpl. rewrite (case_variant_lower _ _ Hcase).
  repeat split.
  - apply lookup_insert_eq.
  - apply entries_of_insert.
  - rewrite insert_insert_eq.
    destruct (commands bot !! PyStr.lower c) as [h|] eqn:Hc.
    + rewrite !map_size_insert_Some; eauto.
    + now rewrite !map_size_insert_None.
  - intros k Hk. now rewrite !lookup_insert_ne.
Qed.

Lemma registering_case_variant_replaces_witness :
  let twice := add_command_handler
                 (add_command_handler (mkBot "t" ∅ []) "/start" cmd_start)
                 "/START" replying_handler in
  commands twice !! PyStr.lower "/start" = Some replying_handler
  /\ filter (fun e => e.1 = PyStr.lower "/start")
            (map_to_list (commands twice))
     = [(PyStr.lower "/start", replying_handler)]
  /\ size (commands twice)
     = size (commands (add_command_handler (mkBot "t" ∅ []) "/start"
                                           cmd_start))
  /\ (forall k, k <> PyStr.lower "/start" ->
        commands twice !! k = commands (mkBot "t" ∅ []) !! k).
Proof.
  apply (registering_case_variant_replaces (mkBot "t" ∅ []) "/start"
           "/START" cmd_start replying_handler).
  simpl. unfold PyStr.same_letter.
  repeat split; first [now left | now right; left | now right; right].
Defined.

(** *** The polling loop *)

Lemma process_message_value_returns (bot : Bot) (v : pyval) (r : Run) :
  fst (process_message_value bot v r) = Ok tt.
Proof.
  destruct v; try reflexivity. apply process_message_returns.
Qed.

Lemma dict_item_has (d : pydict) (k : string) :
  dict_has d k = true -> exists v, dict_item d k = Ok v.
Proof.
  induction d as [|[k' v] d IH]; simpl; [discriminate|].
  destruct (String.eqb k' k); simpl; eauto.
Qed.

(** One well-formed update: the offset moves and the message is handled. *)
Lemma poll_updates_cons (bot : Bot) (u : pyval) (us : list pyval)
    (offset n : Z) (r : Run) :
  next_offset u = Ok n ->
  poll_updates bot (u :: us) offset r
  = poll_updates bot us n (deliver bot r u).
Proof.
  intros Hn. simpl. rewrite Hn. unfold deliver.
  destruct u; try discriminate. simpl.
  destruct (dict_has d "message") eqn:Hhas; [|reflexivity].
  destruct (dict_item_has d "message" Hhas) as [v ->].
  pose proof (process_message_value_returns bot v r) as Hret.
  destruct (process_message_value bot v r) as [[[] | e] r']; simpl in *;
    [reflexivity | discriminate].
Qed.

Lemma offset_after_cons (u : pyval) (us : list pyval) (offset n : Z) :
  next_offset u = Ok n -> Forall well_formed us ->
  offset_after (u :: us) offset = offset_after us n.
Proof.
  intros Hn Hus. unfold offset_after.
  destruct us as [|u' us]; simpl; [now rewrite Hn|].
  change (last (u :: u' :: us)) with (last (u' :: us)).
  destruct (last (u' :: us)) as [x|] eqn:Hlast.
  - assert (Hx : well_formed x).
    { rewrite Forall_forall in Hus. apply Hus.
      apply last_Some in Hlast as [l' ->]. set_solver. }
    destruct Hx as [k ->]. reflexivity.
  - now apply last_None in Hlast.
Qed.

Lemma poll_updates_app (bot : Bot) (good rest : list pyval) (offset : Z)
    (r : Run) :
  Forall well_formed good ->
  poll_updates bot (good ++ rest) offset r
  = poll_updates bot rest (offset_after good offset)
                 (fold_left (deliver bot) good r).
Proof.
  intros Hgood. revert offset r.
  induction Hgood as [|u us [n Hn] Hus IH]; intros offset r; [reflexivity|].
  rewrite <- app_comm_cons, (poll_updates_cons _ _ _ _ _ _ Hn), IH.
  now rewrite (offset_after_cons _ _ _ _ Hn Hus).
Qed.

Lemma offset_after_app (a b : list pyval) (offset : Z) :
  Forall well_formed a -> Forall well_formed b ->
  offset_after (a ++ b) offset = offset_after b (offset_after a offset).
Proof.
  intros Ha Hb. revert offset.
  induction Ha as [|u us [n Hn] Hus IH]; intros offset; [reflexivity|].
  rewrite <- app_comm_cons.
  rewrite (offset_after_cons _ _ _ _ Hn) by (apply Forall_app; auto).
  rewrite (offset_after_cons _ _ _ _ Hn Hus). apply IH.
Qed.

Lemma poll_once_batch (bot : Bot) (reply : http_reply) (us : list pyval)
    (offset : Z) (r : Run) :
  get_updates reply = Ok (PList us) -> Forall well_formed us ->
  poll_once bot reply offset r
  = (offset_after us offset, fold_left (deliver bot) us r).
Proof.
  intros Hget Hus. unfold poll_once. rewrite Hget. simpl.
  rewrite <- (app_nil_r us) at 1. now rewrite poll_updates_app.
Qed.

(** X10. While the loop runs, polling is the same as handling the updates
    of all batches one after another, in the order they arrived: every
    update that carries a message has it processed once, whatever the
    handlers do (a handler that raises stops nothing), and the offset sent
    with the next request is one more than the identifier of the last
    update received, whatever the offset was before. *)
Theorem polling_is_sequential (bot : Bot) (replies : list http_reply)
    (batches : list (list pyval)) (offset : Z) (r : Run) :
  Forall2 (fun reply us => get_updates reply = Ok (PList us)) replies batches ->
  Forall (Forall well_formed) batches ->
  polling_from bot replies offset r
  = (offset_after (concat batches) offset,
     fold_left (deliver bot) (concat batches) r).
Proof.
  intros Hget. revert offset r.
  induction Hget as [|reply us replies batches Hreply _ IH];
    intros offset r Hwf; [reflexivity|].
  apply Forall_cons in Hwf as [Hus Hwf]. simpl.
  rewrite (poll_once_batch _ _ _ _ _ Hreply Hus), IH by exact Hwf.
  rewrite fold_left_app, offset_after_app; [reflexivity | exact Hus |].
  now apply Forall_concat.
Qed.

Lemma polling_is_sequential_witness :
  let bot := MAXChatBot "test_token" in
  let b1 := [update_of 7 "/start"; update_of 8 "hello"] in
  let b2 := [update_of 9 "/help"] in
  polling_from bot [ok_reply b1; ok_reply b2] 0 (mkRun empty_world [])
  = (offset_after (concat [b1; b2]) 0,
     fold_left (deliver bot) (concat [b1; b2]) (mkRun empty_world [])).
Proof.
  intros bot b1 b2.
  apply (polling_is_sequential bot [ok_reply b1; ok_reply b2] [b1; b2] 0
           (mkRun empty_world [])).
  - repeat constructor.
  - repeat constructor; eexists; reflexivity.
Defined.

Example polling_two_batches :
  let out := start_polling (MAXChatBot "test_token")
               [ok_reply [update_of 7 "/start"; update_of 8 "hello"];
                ok_reply [update_of 9 "/help"]]
               empty_world in
  fst out = 10
  /\ outbox (world (snd out))
     = [(PStr "123", welcome_text); (PStr "123", help_text)].
Proof. vm_compute. split; reflexivity. Qed.

(** X11. An update the loop cannot take (no mapping, or an [update_id]
    that is no integer) ends the turn: the updates before it in the batch
    are handled, the updates after it are not, and the offset stays one
    more than the identifier of the last update before it, so the next
    request asks for the same update again. *)
Theorem malformed_update_stalls_polling (bot : Bot) (reply : http_reply)
    (good later : list pyval) (bad : pyval) (e : exn) (offset : Z) (r : Run) :
  get_updates reply = Ok (PList (good ++ bad :: later)) ->
  Forall well_formed good ->
  next_offset bad = Raise e ->
  poll_once bot reply offset r
  = (offset_after good offset, fold_left (deliver bot) good r).
Proof.
  intros Hget Hgood Hbad. unfold poll_once. rewrite Hget. simpl.
  rewrite poll_updates_app by exact Hgood. simpl. now rewrite Hbad.
Qed.

Lemma malformed_update_stalls_polling_witness :
  let bot := MAXChatBot "test_token" in
  let good := [update_of 7 "/start"] in
  let bad := PDict [("update_id", PStr "8");
                    ("message", PDict (test_message "/help"))] in
  let later := [update_of 9 "/info"] in
  poll_once bot (ok_reply (good ++ bad :: later)) 0 (mkRun empty_world [])
  = (offset_after good 0, fold_left (deliver bot) good (mkRun empty_world [])).
Proof.
  intros bot good bad later.
  apply (malformed_update_stalls_polling bot (ok_reply (good ++ bad :: later))
           good later bad TypeError 0 (mkRun empty_world [])).
  - reflexivity.
  - repeat constructor. eexists. reflexivity.
  - reflexivity.
Defined.

(** X12. A turn whose request fails, or whose reply is not a JSON object
    with a truthy [ok], changes nothing: no update is handled and the
    offset is kept. *)
Theorem failed_poll_changes_nothing (bot : Bot) (reply : http_reply)
    (offset : Z) (r : Run) :
  (forall json ok, reply = Responded json ->
     py_get json "ok" PNone = Ok ok -> truthy ok = false) ->
  poll_once bot reply offset r = (offset, r).
Proof.
  intros Hnot. unfold poll_once, get_updates.
  destruct reply as [json | e []]; try reflexivity.
  destruct (py_get json "ok" PNone) as [ok | e] eqn:Hok; [|reflexivity].
  now rewrite (Hnot json ok eq_refl Hok).
Qed.

Lemma failed_poll_changes_nothing_witness :
  poll_once (MAXChatBot "test_token")
            (Responded (PDict [("ok", PBool false);
                               ("description", PStr "Unauthorized");
                               ("result", PList [update_of 7 "/start"])]))
            5 (mkRun empty_world [])
  = (5, mkRun empty_world []).
Proof.
  apply (failed_poll_changes_nothing (MAXChatBot "test_token")
           (Responded (PDict [("ok", PBool false);
                              ("description", PStr "Unauthorized");
                              ("result", PList [update_of 7 "/start"])]))
           5 (mkRun empty_world [])).
  intros json ok Hjson Hok. injection Hjson as <-.
  vm_compute in Hok. injection Hok as <-. reflexivity.
Defined.

(** *** More on the webhook endpoint *)

(** X13. The endpoint never changes the bot or the validator, and it
    changes the server at all only by starting one handling task; it does
    that only for a request that passed validation, whose JSON body is an
    object with a [message], when a bot is set: the task gets that bot and
    that message, and the response is the 200 one. Every other request
    leaves the server as it was. *)
Theorem webhook_starts_task_only_when_validated (req : Request)
    (srv : Server) :
  let out := webhook req srv in
  bot (snd out) = bot srv
  /\ validator (snd out) = validator srv
  /\ (snd out = srv
      \/ exists b json m,
           validated req srv
           /\ bot srv = Some b
           /\ get_json req = Ok json
           /\ truthy json = true
           /\ has_message json = Ok true
           /\ message_of json = Ok m
           /\ fst out = accepted
           /\ threads (snd out) = threads srv ++ [(b, m)]).
Proof.
  destruct srv as [b0 v0 tasks]. unfold webhook, webhook_body, validated.
  simpl.
  assert (Hsame : forall resp : Response,
            bot (resp, mkServer b0 v0 tasks).2 = b0
            /\ validator (resp, mkServer b0 v0 tasks).2 = v0
            /\ ((resp, mkServer b0 v0 tasks).2 = mkServer b0 v0 tasks
                \/ exists b json m,
                     match v0 with
                     | Some v =>
                         validate_request v (headers req) (data req) = Ok true
                     | None => True
                     end
                     /\ b0 = Some b
                     /\ get_json req = Ok json
                     /\ truthy json = true
                     /\ has_message json = Ok true
                     /\ message_of json = Ok m
                     /\ (resp, mkServer b0 v0 tasks).1 = accepted
                     /\ threads (resp, mkServer b0 v0 tasks).2
                        = tasks ++ [(b, m)]))
    by (intros resp; split; [reflexivity | split; [reflexivity | now left]]).
  assert (Hval : match v0 with
                 | Some v => validate_request v (headers req) (data req)
                 | None => Ok true
                 end = Ok true
                 -> match v0 with
                    | Some v =>
                        validate_request v (headers req) (data req) = Ok true
                    | None => True
                    end)
    by (destruct v0; [tauto | intros _; exact I]).
  destruct (match v0 with
            | Some v => validate_request v (headers req) (data req)
            | None => Ok true
            end) as [[] | e] eqn:Hcheck; try apply Hsame.
  specialize (Hval eq_refl).
  destruct (get_json req) as [json | e] eqn:Hjson; [|apply Hsame].
  destruct (truthy json) eqn:Htruthy; simpl; [|apply Hsame].
  destruct (has_message json) as [[] | e] eqn:Hhas; try apply Hsame.
  destruct b0 as [b|]; [|apply Hsame].
  destruct (message_of json) as [m | e] eqn:Hm; [|apply Hsame].
  simpl. split; [reflexivity | split; [reflexivity|]].
  right. exists b, json, m. repeat split; auto.
Qed.

(** X14. A validated request whose JSON body is truthy but no object never
    starts a task: it gets the 200 response when the body (a list or a
    string) does not contain ["message"], and the 500 response when it
    does, or when the body is a number or [true]. *)
Theorem non_object_body_starts_nothing (req : Request) (srv : Server)
    (json : pyval) :
  validated req srv ->
  get_json req = Ok json ->
  truthy json = true ->
  is_dict json = false ->
  webhook req srv
  = (match has_message json with
     | Ok false => accepted
     | _ => internal_error
     end, srv).
Proof.
  unfold validated, webhook, webhook_body. intros Hval Hjson Htruthy Hdict.
  assert (match validator srv with
          | Some v => validate_request v (headers req) (data req)
          | None => Ok true
          end = Ok true) as ->
    by (destruct (validator srv); [exact Hval | reflexivity]).
  rewrite Hjson, Htruthy. simpl.
  destruct (has_message json) as [[] | e] eqn:Hhas; try reflexivity.
  destruct (bot srv); [|reflexivity].
  destruct json; try discriminate; reflexivity.
Qed.

Lemma non_object_body_starts_nothing_witness :
  webhook (mkRequest [("X-Signature", "secret")] "[1]"
                     (Ok (PList [PStr "message"])))
          guarded_server
  = (match has_message (PList [PStr "message"]) with
     | Ok false => accepted
     | _ => internal_error
     end, guarded_server).
Proof.
  apply (non_object_body_starts_nothing
           (mkRequest [("X-Signature", "secret")] "[1]"
                      (Ok (PList [PStr "message"])))
           guarded_server (PList [PStr "message"])).
  - reflexivity.
  - reflexivity.
  - reflexivity.
  - reflexivity.
Defined.

(** X15. While no bot is set (the module globals as they are before
    [setup_webhook_bot] runs), a validated request that carries a message
    gets the 500 response and starts nothing. *)
Theorem no_bot_no_task (req : Request) (srv : Server) (json : pyval) :
  bot srv = None ->
  validated req srv ->
  get_json req = Ok json ->
  truthy json = true ->
  has_message json = Ok true ->
  webhook req srv = (internal_error, srv).
Proof.
  unfold validated, webhook, webhook_body.
  intros Hbot Hval Hjson Htruthy Hhas.
  assert (match validator srv with
          | Some v => validate_request v (headers req) (data req)
          | None => Ok true
          end = Ok true) as ->
    by (destruct (validator srv); [exact Hval | reflexivity]).
  now rewrite Hjson, Htruthy, Hhas, Hbot.
Qed.

Lemma no_bot_no_task_witness :
  webhook spoofed_request (mkServer None None [])
  = (internal_error, mkServer None None []).
Proof.
  apply (no_bot_no_task spoofed_request (mkServer None None [])
           (PDict [("message", PDict (test_message "/start"))])).
  - reflexivity.
  - exact I.
  - reflexivity.
  - reflexivity.
  - reflexivity.
Defined.

(** *** The greeting handler *)

Lemma lower_char_ascii (c : ascii) :
  (PyStr.code (PyStr.lower_char c) <? 128)%nat = (PyStr.code c <? 128)%nat.
Proof. destruct c as [[] [] [] [] [] [] [] []]; reflexivity. Qed.

Lemma ascii_only_lower (s : string) :
  ascii_only (PyStr.lower s) = ascii_only s.
Proof.
  induction s as [|c s IH]; simpl; [reflexivity|].
  now rewrite lower_char_ascii, IH.
Qed.

(** A pattern that starts outside ASCII does not occur in an ASCII text. *)
Lemma str_contains_non_ascii (c : ascii) (p s : string) :
  (PyStr.code c <? 128)%nat = false -> ascii_only s = true ->
  str_contains (String c p) s = false.
Proof.
  intros Hc. induction s as [|x s IH]; intros Hs; [reflexivity|].
  simpl in Hs. apply andb_prop in Hs as [Hx Hs].
  cbn [str_contains String.prefix].
  destruct (ascii_dec c x) as [-> | _]; [congruence|].
  simpl. now apply IH.
Qed.

(** X16. With [handle_greeting] as the only fallback handler, an update
    whose text is plain ASCII gets the greeting, once, exactly when
    ["hello"] or ["hi"] occurs somewhere in the lower-cased text, also
    inside a longer word; otherwise nothing is sent. *)
Theorem greeting_matches_substrings (tok0 : string) (m : pydict)
    (cid : pyval) (text : string) (w : World) :
  update_with m cid text ->
  PyStr.startswith "/" text = false ->
  ascii_only text = true ->
  world (snd (handle (add_message_handler (MAXChatBot tok0) handle_greeting)
                     m w))
  = if str_contains "hello" (PyStr.lower text)
       || str_contains "hi" (PyStr.lower text)
    then send_message cid greeting_reply w
    else w.
Proof.
  intros Hup Hslash Hascii. rewrite (handle_text _ _ _ _ _ Hup Hslash).
  rewrite <- ascii_only_lower in Hascii.
  assert (Hforeign : forall g, g ∈ ["привет"; "здравствуй"; "добрый день"] ->
            str_contains g (PyStr.lower text) = false).
  { intros g Hg.
    repeat (apply elem_of_cons in Hg as [-> | Hg]);
      try (apply str_contains_non_ascii; [reflexivity | exact Hascii]).
    now apply elem_of_nil in Hg. }
  unfold after_calls, after_call, call. simpl.
  rewrite (Hforeign "привет"), (Hforeign "здравствуй"),
    (Hforeign "добрый день") by set_solver.
  simpl. rewrite !orb_false_r.
  now destruct (str_contains "hello" (PyStr.lower text)
                || str_contains "hi" (PyStr.lower text)).
Qed.

Lemma greeting_matches_substrings_witness :
  world (snd (handle (add_message_handler (MAXChatBot "test_token")
                                          handle_greeting)
                     (test_message "Nothing to report") empty_world))
  = if str_contains "hello" (PyStr.lower "Nothing to report")
       || str_contains "hi" (PyStr.lower "Nothing to report")
    then send_message (PStr "123") greeting_reply empty_world
    else empty_world.
Proof.
  apply (greeting_matches_substrings "test_token"
           (test_message "Nothing to report") (PStr "123")
           "Nothing to report" empty_world).
  - repeat split; reflexivity.
  - reflexivity.
  - reflexivity.
Defined.

Example greeting_inside_a_word :
  outbox (world (snd (handle (add_message_handler (MAXChatBot "test_token")
                                                  handle_greeting)
                             (test_message "Nothing to report") empty_world)))
  = [(PStr "123", greeting_reply)].
Proof. vm_compute. reflexivity. Qed.

(** *** Registration and handling *)

(** The body only looks at the registries through the branch it takes. *)
Lemma body_congruence (b1 b2 : Bot) (m : pydict) (r : Run) :
  (py_startswith (text_of m) "/" = Ok true ->
   forall cid, dispatch_command b1 cid (text_of m) m r
               = dispatch_command b2 cid (text_of m) m r) ->
  (py_startswith (text_of m) "/" = Ok false ->
   forall cid, dispatch_text b1 cid (text_of m) m r
               = dispatch_text b2 cid (text_of m) m r) ->
  process_message b1 m r = process_message b2 m r.
Proof.
  intros Hcmd Htxt.
  unfold process_message, try_except, process_message_body, bind, lift.
  destruct (chat_id_of m) as [cid | e]; [|reflexivity].
  cbv beta iota delta [ret].
  destruct (truthy cid); cbv beta iota delta [ret negb]; [|reflexivity].
  destruct (py_get (sender_of m) "username" (PStr "Unknown")); [|reflexivity].
  cbv beta iota delta [ret].
  destruct (py_startswith (text_of m) "/") as [[] | e];
    cbv beta iota delta [ret];
    [now rewrite Hcmd | now rewrite Htxt | reflexivity].
Qed.

(** X17. Registering a command changes nothing for the updates that do not
    name it: an update whose command token is not the registered token in
    lower case (and every update that is no command at all) is handled
    exactly as before the registration. *)
Theorem unrelated_registration_changes_nothing (bot : Bot) (c : string)
    (h : Callable) (m : pydict) (w : World) :
  command_token_of m <> Some (PyStr.lower c) ->
  handle (add_command_handler bot c h) m w = handle bot m w.
Proof.
  intros Hother. unfold handle. apply body_congruence; [|reflexivity].
  intros Hslash cid. unfold command_token_of in Hother.
  unfold dispatch_command, bind, lift, py_split.
  destruct (text_of m) as [| | |s| |]; try discriminate.
  simpl in Hslash. injection Hslash as Hslash. rewrite Hslash in Hother.
  cbv beta iota delta [ret].
  destruct (PyStr.split s) as [|tok rest]; [reflexivity|].
  cbv beta iota delta [ret first_part].
  unfold add_command_handler. cbn [commands].
  rewrite lookup_insert_ne by congruence. reflexivity.
Qed.

Lemma unrelated_registration_changes_nothing_witness :
  handle (add_command_handler (MAXChatBot "test_token") "/Ping"
                              replying_handler)
         (test_message "/start") empty_world
  = handle (MAXChatBot "test_token") (test_message "/start") empty_world.
Proof.
  apply (unrelated_registration_changes_nothing (MAXChatBot "test_token")
           "/Ping" replying_handler (test_message "/start") empty_world).
  vm_compute. discriminate.
Defined.

(** X18. Adding a fallback handler changes nothing for command updates:
    unless the text of a message is a [str] that does not start with the
    command prefix, the message is handled exactly as before. *)
Theorem fallback_registration_spares_commands (bot : Bot) (h : Callable)
    (m : pydict) (w : World) :
  (forall s, text_of m = PStr s -> PyStr.startswith "/" s = true) ->
  handle (add_message_handler bot h) m w = handle bot m w.
Proof.
  intros Hcmd. unfold handle. apply body_congruence; [reflexivity|].
  intros Hplain cid. exfalso.
  destruct (text_of m) as [| | |s| |]; try discriminate.
  simpl in Hplain. injection Hplain as Hplain.
  rewrite (Hcmd s eq_refl) in Hplain. discriminate.
Qed.

Lemma fallback_registration_spares_commands_witness :
  handle (add_message_handler (MAXChatBot "test_token") failing_handler)
         (test_message "/help") empty_world
  = handle (MAXChatBot "test_token") (test_message "/help") empty_world.
Proof.
  apply (fallback_registration_spares_commands (MAXChatBot "test_token")
           failing_handler (test_message "/help") empty_world).
  intros s Hs. vm_compute in Hs. injection Hs as <-. reflexivity.
Defined.

(** X19. A fallback handler added to the chain runs last: for an update of
    plain text the earlier handlers run exactly as without it, then the
    new handler is called, in the world they left. *)
Theorem new_fallback_handler_runs_last (bot : Bot) (h : Callable)
    (m : pydict) (cid : pyval) (text : string) (w : World) :
  update_with m cid text ->
  PyStr.startswith "/" text = false ->
  let before := snd (handle bot m w) in
  handle (add_message_handler bot h) m w
  = (Ok tt,
     mkRun (after_call h (text_args cid text m) (world before))
           (trace before ++ [(h, text_args cid text m)])).
Proof.
  intros Hup Hslash before. subst before.
  rewrite !(handle_text _ _ _ _ _ Hup Hslash). simpl.
  unfold after_calls, calls_of. now rewrite fold_left_app, map_app.
Qed.

Lemma new_fallback_handler_runs_last_witness :
  let bot := add_message_handler (MAXChatBot "test_token") failing_handler in
  let m := test_message "hello" in
  let before := snd (handle bot m empty_world) in
  handle (add_message_handler bot replying_handler) m empty_world
  = (Ok tt,
     mkRun (after_call replying_handler (text_args (PStr "123") "hello" m)
                       (world before))
           (trace before
            ++ [(replying_handler, text_args (PStr "123") "hello" m)])).
Proof.
  intros bot m before.
  apply (new_fallback_handler_runs_last bot replying_handler m (PStr "123")
           "hello" empty_world).
  - repeat split; reflexivity.
  - reflexivity.
Defined.

(** *** The two ways in *)

(** X20. Both ingress paths hand a message to the dispatcher in the same
    way: for a JSON object that carries a [message], the task the webhook
    endpoint starts for it, when run, leaves what one polled update with
    the same content leaves. *)
Theorem webhook_and_polling_agree (req : Request) (srv : Server) (b : Bot)
    (d : pydict) :
  validated req srv ->
  bot srv = Some b ->
  get_json req = Ok (PDict d) ->
  dict_has d "message" = true ->
  exists message,
    webhook req srv
    = (accepted,
       mkServer (bot srv) (validator srv) (threads srv ++ [(b, message)]))
    /\ forall r, snd (run_task (b, message) r) = deliver b r (PDict d).
Proof.
  unfold validated. intros Hval Hbot Hjson Hhas.
  destruct (dict_item_has d "message" Hhas) as [message Hitem].
  exists message. split.
  - unfold webhook, webhook_body.
    assert (match validator srv with
            | Some v => validate_request v (headers req) (data req)
            | None => Ok true
            end = Ok true) as ->
      by (destruct (validator srv); [exact Hval | reflexivity]).
    rewrite Hjson.
    assert (truthy (PDict d) = true) as -> by now destruct d.
    simpl. now rewrite Hhas, Hbot, Hitem.
  - intros r. unfold run_task, deliver. simpl. now rewrite Hhas, Hitem.
Qed.

Lemma webhook_and_polling_agree_witness :
  let req := mkRequest [("X-Signature", "secret")] (data spoofed_request)
                       (get_json spoofed_request) in
  exists message,
    webhook req guarded_server
    = (accepted,
       mkServer (bot guarded_server) (validator guarded_server)
                (threads guarded_server ++ [(MAXChatBot "secret", message)]))
    /\ forall r,
         snd (run_task (MAXChatBot "secret", message) r)
         = deliver (MAXChatBot "secret") r
             (PDict [("message", PDict (test_message "/start"))]).
Proof.
  intros req.
  apply (webhook_and_polling_agree req guarded_server (MAXChatBot "secret")
           [("message", PDict (test_message "/start"))]).
  - reflexivity.
  - reflexivity.
  - reflexivity.
  - reflexivity.
Defined.
